(** * Sokogate subscription service: quota ledger, pre-order lifecycle and
      billing cycle

    A shallow embedding of [services/subscription_service.py] and of the
    entities of [models/subscription.py] it works on.

    - Python [float] columns are IEEE binary64 numbers: Rocq's primitive
      floats, with the same rounding.
    - Python [int] columns are unbounded integers: [Z].
    - A table is a finite map from primary key to row ([gmap Z row]); the row
      records do not repeat the key.
    - The SQLAlchemy session is a working copy of the database ([session]);
      [commit] persists it ([committed]).  A raised exception leaves the
      working copy as it is and persists nothing.
    - The payment gateway and the notification sender are external
      collaborators.  The gateway is a pair of functions in the world that
      decide, per request, whether a call returns or raises; notifications are
      appended to an outbox and never fail.
    - [datetime.utcnow()] reads a clock that stands still during one call of
      the service.
    - An inserted row gets the key after the largest key of its table. *)

From Stdlib Require Import ZArith Floats.
From stdpp Require Import gmap strings list fin_maps.

Set Warnings "-inexact-float".
Open Scope Z_scope.

(** ** Python values *)

Module Py.

(** [float(n)] for an [int]: correctly rounded, [OverflowError] ([None]) when
    the rounded value is not finite. *)
Definition float_of_int (n : Z) : option float :=
  let f := SF2Prim (binary_normalize FloatOps.prec FloatOps.emax n 0 false) in
  if is_infinity f then None else Some f.

(** Truth value of a float: every float but the two zeros. *)
Definition float_truthy (x : float) : bool := negb (is_zero x).

(** [a or b] for an optional float [a]: [None] and zero are falsy. *)
Definition float_or (a : option float) (b : float) : float :=
  match a with
  | Some x => if float_truthy x then x else b
  | None => b
  end.

(** [x > y] on floats. *)
Definition float_gt (x y : float) : bool := (y <? x)%float.

End Py.

(** ** Dates and times

    A [datetime] is a count of microseconds since 0001-01-01T00:00:00 in the
    proleptic Gregorian calendar, the calendar of Python's [datetime].  The
    year range of Python's type (1..9999) is not enforced. *)

Module DateTime.

Definition datetime : Type := Z.

Definition us_per_day : Z := 86400 * 1000000.

(** [timedelta(days=n)] *)
Definition timedelta_days (n : Z) : Z := n * us_per_day.

(** [toordinal()]: day 1 is 0001-01-01. *)
Definition toordinal (dt : datetime) : Z := dt / us_per_day + 1.

(** Midnight of the day with the given ordinal. *)
Definition of_ordinal (n : Z) : datetime := (n - 1) * us_per_day.

Definition is_leap (year : Z) : bool :=
  (year mod 4 =? 0) && (negb (year mod 100 =? 0) || (year mod 400 =? 0)).

Definition days_before_year (year : Z) : Z :=
  let y := year - 1 in
  y * 365 + y / 4 - y / 100 + y / 400.

Definition days_in_month_table : list Z :=
  [31; 28; 31; 30; 31; 30; 31; 31; 30; 31; 30; 31].

Definition days_in_month (year month : Z) : Z :=
  if (month =? 2) && is_leap year then 29
  else nth (Z.to_nat (month - 1)) days_in_month_table 0.

Definition days_before_month_table : list Z :=
  [0; 31; 59; 90; 120; 151; 181; 212; 243; 273; 304; 334].

Definition days_before_month (year month : Z) : Z :=
  nth (Z.to_nat (month - 1)) days_before_month_table 0
  + (if (2 <? month) && is_leap year then 1 else 0).

Definition ymd2ord (year month day : Z) : Z :=
  days_before_year year + days_before_month year month + day.

(** Ordinal to (year, month, day), by 400-, 100-, 4- and 1-year cycles. *)
Definition ord2ymd (ordinal : Z) : Z * Z * Z :=
  let n := ordinal - 1 in
  let n400 := n / 146097 in
  let n := n mod 146097 in
  let year := n400 * 400 + 1 in
  let n100 := n / 36524 in
  let n := n mod 36524 in
  let n4 := n / 1461 in
  let n := n mod 1461 in
  let n1 := n / 365 in
  let n := n mod 365 in
  let year := year + n100 * 100 + n4 * 4 + n1 in
  if (n1 =? 4) || (n100 =? 4) then (year - 1, 12, 31)
  else
    let leapyear := (n1 =? 3) && (negb (n4 =? 24) || (n100 =? 3)) in
    let month := Z.shiftr (n + 50) 5 in
    let preceding :=
      nth (Z.to_nat (month - 1)) days_before_month_table 0
      + (if (2 <? month) && leapyear then 1 else 0) in
    if n <? preceding then
      let month := month - 1 in
      let preceding :=
        preceding
        - (nth (Z.to_nat (month - 1)) days_in_month_table 0
           + (if (month =? 2) && leapyear then 1 else 0)) in
      (year, month, n - preceding + 1)
    else (year, month, n - preceding + 1).

(** [dt.replace(day=1, hour=0, minute=0, second=0, microsecond=0)] *)
Definition month_start (dt : datetime) : datetime :=
  let '(y, m, _) := ord2ymd (toordinal dt) in
  of_ordinal (ymd2ord y m 1).

(** [dt.date()] and SQL [date(dt)], as a day number. *)
Definition date (dt : datetime) : Z := toordinal dt.

(** A datetime from its civil fields, for writing examples. *)
Definition make (year month day hour minute second : Z) : datetime :=
  of_ordinal (ymd2ord year month day)
  + ((hour * 60 + minute) * 60 + second) * 1000000.

End DateTime.

Export DateTime(datetime).

(** ** Entities ([models/subscription.py])

    A record carries the columns the service reads or writes.  The audit
    columns of a row ([created_at] except on pre-orders, and [updated_at],
    which the ORM stamps again on every UPDATE) are not carried: what is said
    about a row concerns the columns listed here. *)

Inductive SubscriptionStatus := ACTIVE | PAUSED | SUB_CANCELLED | EXPIRED.

Inductive PreOrderStatus := PENDING | CONFIRMED | PROCESSING | FULFILLED | CANCELLED.

Inductive PaymentFrequency := MONTHLY | QUARTERLY | ANNUALLY.

#[global] Instance SubscriptionStatus_eq_dec : EqDecision SubscriptionStatus.
Proof. solve_decision. Defined.

#[global] Instance PreOrderStatus_eq_dec : EqDecision PreOrderStatus.
Proof. solve_decision. Defined.

#[global] Instance PaymentFrequency_eq_dec : EqDecision PaymentFrequency.
Proof. solve_decision. Defined.

Module Subscription.
Record t := mk {
  customer_id : Z;
  subscription_plan_id : Z;
  status : SubscriptionStatus;
  start_date : datetime;
  end_date : option datetime;
  next_billing_date : option datetime;
  monthly_preorder_limit : Z;
  current_month_preorders : Z;
  total_preorder_value_limit : float;
  current_preorder_value : float;
  payment_method_id : string;
  auto_renew : bool
}.

Definition set_status (v : SubscriptionStatus) (s : t) : t :=
  mk (customer_id s) (subscription_plan_id s) v (start_date s) (end_date s)
     (next_billing_date s) (monthly_preorder_limit s) (current_month_preorders s)
     (total_preorder_value_limit s) (current_preorder_value s)
     (payment_method_id s) (auto_renew s).

Definition set_end_date (v : option datetime) (s : t) : t :=
  mk (customer_id s) (subscription_plan_id s) (status s) (start_date s) v
     (next_billing_date s) (monthly_preorder_limit s) (current_month_preorders s)
     (total_preorder_value_limit s) (current_preorder_value s)
     (payment_method_id s) (auto_renew s).

Definition set_next_billing_date (v : option datetime) (s : t) : t :=
  mk (customer_id s) (subscription_plan_id s) (status s) (start_date s) (end_date s)
     v (monthly_preorder_limit s) (current_month_preorders s)
     (total_preorder_value_limit s) (current_preorder_value s)
     (payment_method_id s) (auto_renew s).

Definition set_current_month_preorders (v : Z) (s : t) : t :=
  mk (customer_id s) (subscription_plan_id s) (status s) (start_date s) (end_date s)
     (next_billing_date s) (monthly_preorder_limit s) v
     (total_preorder_value_limit s) (current_preorder_value s)
     (payment_method_id s) (auto_renew s).

Definition set_current_preorder_value (v : float) (s : t) : t :=
  mk (customer_id s) (subscription_plan_id s) (status s) (start_date s) (end_date s)
     (next_billing_date s) (monthly_preorder_limit s) (current_month_preorders s)
     (total_preorder_value_limit s) v
     (payment_method_id s) (auto_renew s).

Definition set_auto_renew (v : bool) (s : t) : t :=
  mk (customer_id s) (subscription_plan_id s) (status s) (start_date s) (end_date s)
     (next_billing_date s) (monthly_preorder_limit s) (current_month_preorders s)
     (total_preorder_value_limit s) (current_preorder_value s)
     (payment_method_id s) v.
End Subscription.

Module SubscriptionPlan.
Record t := mk {
  name : string;
  price : float;
  billing_frequency : PaymentFrequency;
  preorder_limit_per_month : Z;
  preorder_value_limit : float;
  discount_percentage : float;
  is_active : bool
}.
End SubscriptionPlan.

Module Product.
Record t := mk {
  is_pre_order_eligible : bool;
  pre_order_start_date : option datetime;
  pre_order_end_date : option datetime;
  expected_availability_date : option datetime;
  pre_order_limit : option Z;
  current_pre_orders : Z;
  base_price : float;
  pre_order_price : option float;
  is_active : bool
}.

Definition set_current_pre_orders (v : Z) (p : t) : t :=
  mk (is_pre_order_eligible p) (pre_order_start_date p) (pre_order_end_date p)
     (expected_availability_date p) (pre_order_limit p) v (base_price p)
     (pre_order_price p) (is_active p).
End Product.

Module PreOrder.
Record t := mk {
  subscription_id : Z;
  customer_id : Z;
  product_id : Z;
  product_variant_id : option Z;
  quantity : Z;
  unit_price : float;
  discount_applied : float;
  total_amount : float;
  status : PreOrderStatus;
  expected_availability_date : option datetime;
  pre_order_deadline : option datetime;
  priority_level : Z;
  payment_status : string;
  payment_intent_id : option string;
  created_at : datetime
}.

Definition set_status (v : PreOrderStatus) (o : t) : t :=
  mk (subscription_id o) (customer_id o) (product_id o) (product_variant_id o)
     (quantity o) (unit_price o) (discount_applied o) (total_amount o) v
     (expected_availability_date o) (pre_order_deadline o) (priority_level o)
     (payment_status o) (payment_intent_id o) (created_at o).

Definition set_payment_status (v : string) (o : t) : t :=
  mk (subscription_id o) (customer_id o) (product_id o) (product_variant_id o)
     (quantity o) (unit_price o) (discount_applied o) (total_amount o) (status o)
     (expected_availability_date o) (pre_order_deadline o) (priority_level o)
     v (payment_intent_id o) (created_at o).
End PreOrder.

(** ** The store, the collaborators and the world *)

Record DB := mkDB {
  subscriptions : gmap Z Subscription.t;
  subscription_plans : gmap Z SubscriptionPlan.t;
  products : gmap Z Product.t;
  pre_orders : gmap Z PreOrder.t
}.

Inductive Exn :=
  | ValueError (msg : string)
  | AttributeError (msg : string)
  | TypeError (msg : string)
  | OverflowError (msg : string)
  | ObjectDeletedError
  | GatewayError (msg : string).

(** The error kinds of the specification, as the exceptions the service
    raises for them. *)
Definition QuotaExceeded_count : Exn := ValueError "Monthly pre-order limit exceeded".
Definition QuotaExceeded_value : Exn := ValueError "Monthly pre-order value limit exceeded".
Definition InvalidState_already_cancelled : Exn := ValueError "Pre-order already cancelled".
Definition InvalidState_not_cancellable : Exn :=
  ValueError "Cannot cancel pre-order in current status".

Record ChargeRequest := mkCharge {
  charge_customer_id : Z;
  charge_amount : float;
  charge_payment_method_id : string;
  charge_description : string
}.

Record RefundRequest := mkRefund {
  refund_payment_intent_id : option string;
  refund_amount : float
}.

(** Modelled from the spec: the payment collaborator ([PaymentService]), whose
    code is not part of the service.  [charge(customer, amount, method,
    description) -> receipt | raises PaymentFailed] and
    [refund(receipt, amount) -> ack | raises RefundFailed]: each call either
    returns ([None]; the service never reads the receipt) or raises. *)
Record Gateway := mkGateway {
  charge_subscription : ChargeRequest -> option Exn;
  refund_payment : RefundRequest -> option Exn
}.

(** Modelled from the spec: the notification collaborator
    ([NotificationService]), one-way sends whose result the service never
    reads.  The messages sent, newest first. *)
Inductive Notification :=
  | send_pre_order_confirmation (customer_id pre_order_id : Z)
  | send_pre_order_cancelled (customer_id pre_order_id : Z)
  | send_subscription_cancelled (customer_id subscription_id : Z) (immediate : bool)
  | send_billing_success (customer_id subscription_id : Z) (amount : float)
  | send_billing_failed (customer_id subscription_id : Z) (error : Exn).

Record World := mkWorld {
  session : DB;
  committed : DB;
  clock : datetime;
  gateway : Gateway;
  outbox : list Notification
}.

(** ** Computations: state and exceptions *)

Definition M (A : Type) : Type := World -> (Exn + A) * World.

Definition ret {A} (a : A) : M A := fun w => (inr a, w).

Definition raise {A} (e : Exn) : M A := fun w => (inl e, w).

Definition bind {A B} (m : M A) (k : A -> M B) : M B :=
  fun w =>
    match m w with
    | (inl e, w') => (inl e, w')
    | (inr a, w') => k a w'
    end.

Notation "x <- c ;; k" := (bind c (fun x => k))
  (at level 100, c at next level, right associativity).
Notation "c ;; k" := (bind c (fun _ => k))
  (at level 100, right associativity).

(** [try: m except Exception as e: h e] *)
Definition try_except {A} (m : M A) (h : Exn -> M A) : M A :=
  fun w =>
    match m w with
    | (inl e, w') => h e w'
    | (inr a, w') => (inr a, w')
    end.

(** [for x in l: body x] *)
Fixpoint for_each {A} (l : list A) (body : A -> M unit) : M unit :=
  match l with
  | [] => ret tt
  | x :: l' => body x ;; for_each l' body
  end.

Definition raise_if (c : bool) (e : Exn) : M unit :=
  if c then raise e else ret tt.

Definition unwrap {A} (o : option A) (e : Exn) : M A :=
  match o with
  | Some a => ret a
  | None => raise e
  end.

Definition get_session : M DB := fun w => (inr (session w), w).

Definition modify_session (f : DB -> DB) : M unit :=
  fun w => (inr tt, mkWorld (f (session w)) (committed w) (clock w) (gateway w) (outbox w)).

(** [self.db.commit()] *)
Definition commit : M unit :=
  fun w => (inr tt, mkWorld (session w) (session w) (clock w) (gateway w) (outbox w)).

(** [datetime.utcnow()] *)
Definition utcnow : M datetime := fun w => (inr (clock w), w).

Definition notify (n : Notification) : M unit :=
  fun w => (inr tt, mkWorld (session w) (committed w) (clock w) (gateway w) (n :: outbox w)).

Definition charge (req : ChargeRequest) : M unit :=
  fun w =>
    match charge_subscription (gateway w) req with
    | Some e => (inl e, w)
    | None => (inr tt, w)
    end.

Definition refund (req : RefundRequest) : M unit :=
  fun w =>
    match refund_payment (gateway w) req with
    | Some e => (inl e, w)
    | None => (inr tt, w)
    end.

(** Writing a row back into the session (an attribute assignment on a loaded
    object, or [self.db.add]). *)
Definition put_subscription (id : Z) (s : Subscription.t) (db : DB) : DB :=
  mkDB (<[id := s]> (subscriptions db)) (subscription_plans db) (products db) (pre_orders db).

Definition put_product (id : Z) (p : Product.t) (db : DB) : DB :=
  mkDB (subscriptions db) (subscription_plans db) (<[id := p]> (products db)) (pre_orders db).

Definition put_pre_order (id : Z) (o : PreOrder.t) (db : DB) : DB :=
  mkDB (subscriptions db) (subscription_plans db) (products db) (<[id := o]> (pre_orders db)).

(** The key an autoincrement primary key gives the next inserted row. *)
Definition fresh_id {A} (m : gmap Z A) : Z :=
  foldr Z.max 0 ((map_to_list m).*1) + 1.

(** [subscription.subscription_plan] *)
Definition subscription_plan (db : DB) (s : Subscription.t) : option SubscriptionPlan.t :=
  subscription_plans db !! Subscription.subscription_plan_id s.

(** ** The quota ledger *)

(** The rows of
    [query(PreOrder).filter(subscription_id == sid, created_at >= start,
                            status != CANCELLED)]. *)
Definition in_month (sid : Z) (start : datetime) (o : PreOrder.t) : bool :=
  (PreOrder.subscription_id o =? sid)
  && (start <=? PreOrder.created_at o)
  && negb (bool_decide (PreOrder.status o = CANCELLED)).

Definition month_pre_orders (db : DB) (sid : Z) (start : datetime) : list PreOrder.t :=
  List.filter (in_month sid start) ((map_to_list (pre_orders db)).*2).

(** SQL [SUM]: [NULL] over no rows. *)
Definition sql_sum (l : list float) : option float :=
  match l with
  | [] => None
  | x :: l' => Some (fold_left PrimFloat.add l' x)
  end.

Definition current_month_orders (db : DB) (sid : Z) (now : datetime) : Z :=
  Z.of_nat (length (month_pre_orders db sid (DateTime.month_start now))).

Definition current_month_value (db : DB) (sid : Z) (now : datetime) : float :=
  Py.float_or
    (sql_sum (PreOrder.total_amount <$> month_pre_orders db sid (DateTime.month_start now)))
    0%float.

(** [unit_price = product.pre_order_price or product.base_price] *)
Definition unit_price_of (product : Product.t) : float :=
  Py.float_or (Product.pre_order_price product) (Product.base_price product).

Definition to_float (n : Z) : M float :=
  unwrap (Py.float_of_int n) (OverflowError "int too large to convert to float").

Definition _validate_subscription_limits
    (subscription_id : Z) (subscription : Subscription.t)
    (product : Product.t) (quantity : Z) : M unit :=
  now <- utcnow ;;
  db <- get_session ;;
  let current_month_orders := current_month_orders db subscription_id now in
  let current_month_value := current_month_value db subscription_id now in
  raise_if
    ((0 <? Subscription.monthly_preorder_limit subscription)
     && (Subscription.monthly_preorder_limit subscription <=? current_month_orders))
    (ValueError "Monthly pre-order limit exceeded") ;;
  let unit_price := unit_price_of product in
  plan <- unwrap (subscription_plan db subscription)
            (AttributeError "'NoneType' object has no attribute 'discount_percentage'") ;;
  let discount_applied :=
    (unit_price * (SubscriptionPlan.discount_percentage plan / 100))%float in
  let discounted_price := (unit_price - discount_applied)%float in
  q <- to_float quantity ;;
  let order_total := (discounted_price * q)%float in
  raise_if
    (Py.float_gt (Subscription.total_preorder_value_limit subscription) 0
     && Py.float_gt (current_month_value + order_total)
                    (Subscription.total_preorder_value_limit subscription))
    (ValueError "Monthly pre-order value limit exceeded").

(** ** The pre-order lifecycle *)

(** [product.pre_order_start_date and now < product.pre_order_start_date] *)
Definition not_started (now : datetime) (product : Product.t) : bool :=
  match Product.pre_order_start_date product with
  | Some start => now <? start
  | None => false
  end.

(** [product.pre_order_end_date and now > product.pre_order_end_date] *)
Definition ended (now : datetime) (product : Product.t) : bool :=
  match Product.pre_order_end_date product with
  | Some stop => stop <? now
  | None => false
  end.

(** [product.pre_order_limit and
     (product.current_pre_orders + quantity) > product.pre_order_limit]:
    a limit of [None] or of zero is falsy. *)
Definition over_capacity (product : Product.t) (quantity : Z) : bool :=
  match Product.pre_order_limit product with
  | Some limit =>
      negb (limit =? 0) && (limit <? Product.current_pre_orders product + quantity)
  | None => false
  end.

(** [query(Subscription).filter(id == sid, status == ACTIVE).first()] *)
Definition active_subscription (db : DB) (sid : Z) : option Subscription.t :=
  s ← subscriptions db !! sid;
  if bool_decide (Subscription.status s = ACTIVE) then Some s else None.

(** [query(Product).filter(id == pid, is_active, is_pre_order_eligible).first()] *)
Definition eligible_product (db : DB) (pid : Z) : option Product.t :=
  p ← products db !! pid;
  if Product.is_active p && Product.is_pre_order_eligible p then Some p else None.

Definition create_pre_order
    (subscription_id product_id quantity : Z)
    (product_variant_id : option Z) (priority_level : Z) : M (Z * PreOrder.t) :=
  db <- get_session ;;
  subscription <-
    unwrap (active_subscription db subscription_id)
           (ValueError "Active subscription not found") ;;
  product <-
    unwrap (eligible_product db product_id)
           (ValueError "Product not found or not eligible for pre-order") ;;
  now <- utcnow ;;
  raise_if (not_started now product)
    (ValueError "Pre-order period has not started yet") ;;
  raise_if (ended now product)
    (ValueError "Pre-order period has ended") ;;
  raise_if (over_capacity product quantity)
    (ValueError "Pre-order quantity exceeds available limit") ;;
  _validate_subscription_limits subscription_id subscription product quantity ;;
  let unit_price := unit_price_of product in
  plan <- unwrap (subscription_plan db subscription)
            (AttributeError "'NoneType' object has no attribute 'discount_percentage'") ;;
  let discount_applied :=
    (unit_price * (SubscriptionPlan.discount_percentage plan / 100))%float in
  let discounted_price := (unit_price - discount_applied)%float in
  q <- to_float quantity ;;
  let total_amount := (discounted_price * q)%float in
  let pre_order :=
    PreOrder.mk subscription_id (Subscription.customer_id subscription) product_id
      product_variant_id quantity unit_price (discount_applied * q)%float total_amount
      PENDING (Product.expected_availability_date product)
      (Product.pre_order_end_date product) priority_level "pending" None now in
  let pre_order_id := fresh_id (pre_orders db) in
  modify_session (put_pre_order pre_order_id pre_order) ;;
  modify_session
    (put_product product_id
       (Product.set_current_pre_orders
          (Product.current_pre_orders product + quantity) product)) ;;
  modify_session
    (put_subscription subscription_id
       (Subscription.set_current_preorder_value
          (Subscription.current_preorder_value subscription + total_amount)%float
          (Subscription.set_current_month_preorders
             (Subscription.current_month_preorders subscription + 1) subscription))) ;;
  commit ;;
  notify (send_pre_order_confirmation (Subscription.customer_id subscription) pre_order_id) ;;
  ret (pre_order_id, pre_order).

Definition cancel_pre_order (pre_order_id : Z) : M unit :=
  db <- get_session ;;
  pre_order <- unwrap (pre_orders db !! pre_order_id) (ValueError "Pre-order not found") ;;
  raise_if (bool_decide (PreOrder.status pre_order = CANCELLED))
    (ValueError "Pre-order already cancelled") ;;
  raise_if
    (bool_decide (PreOrder.status pre_order = PROCESSING)
     || bool_decide (PreOrder.status pre_order = FULFILLED))
    (ValueError "Cannot cancel pre-order in current status") ;;
  let pre_order := PreOrder.set_status CANCELLED pre_order in
  modify_session (put_pre_order pre_order_id pre_order) ;;
  let product := products db !! PreOrder.product_id pre_order in
  let subscription := subscriptions db !! PreOrder.subscription_id pre_order in
  product <- unwrap product
               (AttributeError "'NoneType' object has no attribute 'current_pre_orders'") ;;
  modify_session
    (put_product (PreOrder.product_id pre_order)
       (Product.set_current_pre_orders
          (Product.current_pre_orders product - PreOrder.quantity pre_order) product)) ;;
  subscription <- unwrap subscription
               (AttributeError "'NoneType' object has no attribute 'current_month_preorders'") ;;
  modify_session
    (put_subscription (PreOrder.subscription_id pre_order)
       (Subscription.set_current_preorder_value
          (Subscription.current_preorder_value subscription
           - PreOrder.total_amount pre_order)%float
          (Subscription.set_current_month_preorders
             (Subscription.current_month_preorders subscription - 1) subscription))) ;;
  (if String.eqb (PreOrder.payment_status pre_order) "charged" then
     refund (mkRefund (PreOrder.payment_intent_id pre_order)
                      (PreOrder.total_amount pre_order)) ;;
     modify_session
       (put_pre_order pre_order_id (PreOrder.set_payment_status "refunded" pre_order))
   else ret tt) ;;
  commit ;;
  notify (send_pre_order_cancelled (PreOrder.customer_id pre_order) pre_order_id).

(** ** The subscription lifecycle: cancellation *)

(** The keys of
    [query(PreOrder).filter(subscription_id == sid, status == PENDING).all()]. *)
Definition pending_pre_orders (db : DB) (sid : Z) : list Z :=
  (List.filter
     (fun r : Z * PreOrder.t =>
        (PreOrder.subscription_id r.2 =? sid)
        && bool_decide (PreOrder.status r.2 = PENDING))
     (map_to_list (pre_orders db))).*1.

Definition cancel_subscription (subscription_id : Z) (immediate : bool) : M unit :=
  db <- get_session ;;
  subscription <- unwrap (subscriptions db !! subscription_id)
                    (ValueError "Subscription not found") ;;
  raise_if (bool_decide (Subscription.status subscription = SUB_CANCELLED))
    (ValueError "Subscription already cancelled") ;;
  now <- utcnow ;;
  let subscription :=
    if immediate then
      Subscription.set_end_date (Some now)
        (Subscription.set_status SUB_CANCELLED subscription)
    else
      Subscription.set_status SUB_CANCELLED
        (Subscription.set_auto_renew false subscription) in
  modify_session (put_subscription subscription_id subscription) ;;
  db <- get_session ;;
  for_each (pending_pre_orders db subscription_id) cancel_pre_order ;;
  commit ;;
  notify (send_subscription_cancelled
            (Subscription.customer_id subscription) subscription_id immediate).

(** ** The billing cycle *)

Definition period_days (f : PaymentFrequency) : Z :=
  match f with
  | MONTHLY => 30
  | QUARTERLY => 90
  | ANNUALLY => 365
  end.

(** [dt += timedelta(days=n)] on a nullable column: [TypeError] on [None]. *)
Definition add_days (dt : option datetime) (n : Z) : M datetime :=
  d <- unwrap dt
         (TypeError "unsupported operand type(s) for +=: 'NoneType' and 'datetime.timedelta'") ;;
  ret (d + DateTime.timedelta_days n).

Definition _process_subscription_renewal (subscription_id : Z) : M unit :=
  db <- get_session ;;
  subscription <- unwrap (subscriptions db !! subscription_id) ObjectDeletedError ;;
  plan <- unwrap (subscription_plan db subscription)
            (AttributeError "'NoneType' object has no attribute 'price'") ;;
  charge (mkCharge (Subscription.customer_id subscription)
                   (SubscriptionPlan.price plan)
                   (Subscription.payment_method_id subscription)
                   ("Subscription renewal - " +:+ SubscriptionPlan.name plan)) ;;
  subscription <-
    match SubscriptionPlan.billing_frequency plan with
    | MONTHLY =>
        d <- add_days (Subscription.next_billing_date subscription) 30 ;;
        ret (Subscription.set_end_date (Some d)
               (Subscription.set_next_billing_date (Some d) subscription))
    | QUARTERLY =>
        d <- add_days (Subscription.next_billing_date subscription) 90 ;;
        ret (Subscription.set_end_date (Some d)
               (Subscription.set_next_billing_date (Some d) subscription))
    | ANNUALLY =>
        d <- add_days (Subscription.next_billing_date subscription) 365 ;;
        ret (Subscription.set_end_date (Some d)
               (Subscription.set_next_billing_date (Some d) subscription))
    end ;;
  let subscription :=
    Subscription.set_current_preorder_value 0%float
      (Subscription.set_current_month_preorders 0 subscription) in
  modify_session (put_subscription subscription_id subscription) ;;
  commit ;;
  notify (send_billing_success (Subscription.customer_id subscription) subscription_id
            (SubscriptionPlan.price plan)).

(** [status == ACTIVE, auto_renew == True, date(next_billing_date) <= today] *)
Definition is_due (today : Z) (s : Subscription.t) : bool :=
  bool_decide (Subscription.status s = ACTIVE)
  && Subscription.auto_renew s
  && match Subscription.next_billing_date s with
     | Some d => DateTime.date d <=? today
     | None => false
     end.

Definition due_subscriptions (db : DB) (today : Z) : list (Z * Subscription.t) :=
  List.filter (fun r : Z * Subscription.t => is_due today r.2)
    (map_to_list (subscriptions db)).

Definition process_billing_cycle : M unit :=
  now <- utcnow ;;
  let today := DateTime.date now in
  db <- get_session ;;
  for_each (due_subscriptions db today)
    (fun r =>
       try_except (_process_subscription_renewal r.1)
         (fun e => notify (send_billing_failed (Subscription.customer_id r.2) r.1 e))).

(** * Vocabulary of the statements *)

(** The two quota conditions of [_validate_subscription_limits]. *)
Definition count_exceeded (w : World) (sid : Z) (sub : Subscription.t) : bool :=
  (0 <? Subscription.monthly_preorder_limit sub)
  && (Subscription.monthly_preorder_limit sub
      <=? current_month_orders (session w) sid (clock w)).

Definition order_total (p : Product.t) (plan : SubscriptionPlan.t) (qf : float) : float :=
  ((unit_price_of p
    - unit_price_of p * (SubscriptionPlan.discount_percentage plan / 100)) * qf)%float.

Definition value_exceeded (w : World) (sid : Z) (sub : Subscription.t) (total : float) : bool :=
  Py.float_gt (Subscription.total_preorder_value_limit sub) 0
  && Py.float_gt (current_month_value (session w) sid (clock w) + total)
       (Subscription.total_preorder_value_limit sub).

(** The row [create_pre_order] inserts and the world it leaves. *)
Definition created_pre_order (now : datetime) (sid pid q : Z) (var : option Z) (prio : Z)
    (sub : Subscription.t) (p : Product.t) (plan : SubscriptionPlan.t) (qf : float) : PreOrder.t :=
  let u := unit_price_of p in
  let d := (u * (SubscriptionPlan.discount_percentage plan / 100))%float in
  PreOrder.mk sid (Subscription.customer_id sub) pid var q u (d * qf)%float
    ((u - d) * qf)%float PENDING (Product.expected_availability_date p)
    (Product.pre_order_end_date p) prio "pending" None now.

Definition db_after_create (db : DB) (sid pid q : Z) (sub : Subscription.t) (p : Product.t)
    (id : Z) (o : PreOrder.t) : DB :=
  put_subscription sid
    (Subscription.set_current_preorder_value
       (Subscription.current_preorder_value sub + PreOrder.total_amount o)%float
       (Subscription.set_current_month_preorders
          (Subscription.current_month_preorders sub + 1) sub))
    (put_product pid
       (Product.set_current_pre_orders (Product.current_pre_orders p + q) p)
       (put_pre_order id o db)).

Definition world_after_create (w : World) (sid pid q : Z) (sub : Subscription.t)
    (p : Product.t) (id : Z) (o : PreOrder.t) : World :=
  let db := db_after_create (session w) sid pid q sub p id o in
  mkWorld db db (clock w) (gateway w)
    (send_pre_order_confirmation (Subscription.customer_id sub) id :: outbox w).

(** Forgetting the two running counters of a subscription. *)
Definition forget_counters (s : Subscription.t) : Subscription.t :=
  Subscription.set_current_preorder_value 0%float
    (Subscription.set_current_month_preorders 0 s).

(** Two worlds that differ at most in the counters of their subscriptions. *)
Definition same_but_counters (w1 w2 : World) : Prop :=
  clock w1 = clock w2
  /\ pre_orders (session w1) = pre_orders (session w2)
  /\ products (session w1) = products (session w2)
  /\ subscription_plans (session w1) = subscription_plans (session w2)
  /\ forget_counters <$> subscriptions (session w1)
     = forget_counters <$> subscriptions (session w2).

(** Accepted ([None]) or rejected with an exception. *)
Definition outcome {A} (r : (Exn + A) * World) : option Exn :=
  match r.1 with
  | inl e => Some e
  | inr _ => None
  end.

(** The charge [_process_subscription_renewal] attempts. *)
Definition renewal_charge (sub : Subscription.t) (plan : SubscriptionPlan.t) : ChargeRequest :=
  mkCharge (Subscription.customer_id sub) (SubscriptionPlan.price plan)
    (Subscription.payment_method_id sub)
    ("Subscription renewal - " +:+ SubscriptionPlan.name plan).

(** A subscription renewed up to [d]. *)
Definition renewed (sub : Subscription.t) (d : datetime) : Subscription.t :=
  Subscription.set_current_preorder_value 0%float
    (Subscription.set_current_month_preorders 0
       (Subscription.set_end_date (Some d)
          (Subscription.set_next_billing_date (Some d) sub))).

(** What one renewal attempt does to the row of a subscription: the renewed
    row, or the exception that ends the attempt. *)
Definition renewal_result (w : World) (sub : Subscription.t) : Exn + Subscription.t :=
  match subscription_plan (session w) sub with
  | None => inl (AttributeError "'NoneType' object has no attribute 'price'")
  | Some plan =>
      match charge_subscription (gateway w) (renewal_charge sub plan) with
      | Some e => inl e
      | None =>
          match Subscription.next_billing_date sub with
          | None =>
              inl (TypeError
                     "unsupported operand type(s) for +=: 'NoneType' and 'datetime.timedelta'")
          | Some d =>
              inr (renewed sub
                     (d + DateTime.timedelta_days
                            (period_days (SubscriptionPlan.billing_frequency plan))))
          end
      end
  end.

Definition row_after_renewal (w : World) (sub : Subscription.t) : Subscription.t :=
  match renewal_result w sub with
  | inl _ => sub
  | inr sub' => sub'
  end.

Definition world_after_renewal (w : World) (sid : Z) (sub' : Subscription.t) : World :=
  let db := put_subscription sid sub' (session w) in
  mkWorld db db (clock w) (gateway w)
    (send_billing_success (Subscription.customer_id sub') sid
       (default 0%float
          (SubscriptionPlan.price <$> subscription_plan (session w) sub'))
     :: outbox w).

(** One turn of the loop of [process_billing_cycle]. *)
Definition renewal_step (r : Z * Subscription.t) : M unit :=
  try_except (_process_subscription_renewal r.1)
    (fun e => notify (send_billing_failed (Subscription.customer_id r.2) r.1 e)).

(** The session after the status change and the three decrements of
    [cancel_pre_order]. *)
Definition db_after_cancel (db : DB) (id : Z) (o : PreOrder.t) (p : Product.t)
    (sub : Subscription.t) : DB :=
  put_subscription (PreOrder.subscription_id o)
    (Subscription.set_current_preorder_value
       (Subscription.current_preorder_value sub - PreOrder.total_amount o)%float
       (Subscription.set_current_month_preorders
          (Subscription.current_month_preorders sub - 1) sub))
    (put_product (PreOrder.product_id o)
       (Product.set_current_pre_orders
          (Product.current_pre_orders p - PreOrder.quantity o) p)
       (put_pre_order id (PreOrder.set_status CANCELLED o) db)).

Definition cancellable (o : PreOrder.t) : Prop :=
  PreOrder.status o = PENDING \/ PreOrder.status o = CONFIRMED.

(** ** Example worlds *)

Definition ex_now : datetime := DateTime.make 2024 3 15 12 0 0.

Definition ex_plan : SubscriptionPlan.t :=
  SubscriptionPlan.mk "Basic" 29.99%float MONTHLY 2 100%float 0%float true.

Definition ex_subscription (customer : Z) (method : string) : Subscription.t :=
  Subscription.mk customer 1 ACTIVE (ex_now - DateTime.timedelta_days 30)
    (Some ex_now) (Some ex_now) 2 0 100%float 0%float method true.

Definition ex_product (price : float) (special : option float) : Product.t :=
  Product.mk true None None None (Some 10) 0 price special true.

Definition ex_products : gmap Z Product.t :=
  <[5 := ex_product 40%float None]>
    (<[4 := ex_product 10%float (Some 0%float)]>
       (<[3 := ex_product 60%float None]>
          (<[2 := ex_product 0.2%float None]> {[ 1 := ex_product 0.1%float None ]}))).

Definition ex_db : DB :=
  mkDB (<[2 := ex_subscription 8 "pm_declined"]> {[ 1 := ex_subscription 7 "pm_1" ]})
       {[ 1 := ex_plan ]} ex_products ∅.

(** A gateway that declines one payment method and every refund. *)
Definition ex_gateway : Gateway :=
  mkGateway
    (fun req =>
       if String.eqb (charge_payment_method_id req) "pm_declined"
       then Some (GatewayError "card declined") else None)
    (fun _ => Some (GatewayError "refund failed")).

Definition ex_world : World := mkWorld ex_db ex_db ex_now ex_gateway [].

(** The world a computation leaves, and the value it returns. *)
Definition after {A} (m : M A) (w : World) : World := (m w).2.

Definition returned {A} (m : M A) (w : World) : option A :=
  match (m w).1 with
  | inr a => Some a
  | inl _ => None
  end.

(** Subscription 1 after one pre-order of 0.1, of 60, and after 0.1 and 0.2. *)
Definition ex_world_tenth : World := after (create_pre_order 1 1 1 None 1) ex_world.
Definition ex_world_sixty : World := after (create_pre_order 1 3 1 None 1) ex_world.
Definition ex_world_full : World := after (create_pre_order 1 2 1 None 1) ex_world_tenth.

(** A pending pre-order that was already charged. *)
Definition ex_charged_order : PreOrder.t :=
  PreOrder.mk 1 7 3 None 1 60%float 0%float 60%float PENDING None None 1
    "charged" (Some "pi_1") ex_now.

Definition ex_db_charged : DB :=
  mkDB {[ 1 := Subscription.set_current_preorder_value 60%float
                 (Subscription.set_current_month_preorders 1 (ex_subscription 7 "pm_1")) ]}
       {[ 1 := ex_plan ]}
       {[ 3 := Product.set_current_pre_orders 1 (ex_product 60%float None) ]}
       {[ 1 := ex_charged_order ]}.

Definition ex_world_charged : World :=
  mkWorld ex_db_charged ex_db_charged ex_now ex_gateway [].

(** The counters of a subscription, as the session and as the store have them. *)
Definition counters (db : DB) (sid : Z) : option (Z * float) :=
  (fun s => (Subscription.current_month_preorders s,
             Subscription.current_preorder_value s)) <$> subscriptions db !! sid.

(** The same world with the counters of subscription 1 overwritten. *)
Definition ex_world_skewed : World :=
  mkWorld
    (put_subscription 1
       (Subscription.set_current_preorder_value 99999%float
          (Subscription.set_current_month_preorders (-5) (ex_subscription 7 "pm_1")))
       (session ex_world_full))
    (committed ex_world_full) (clock ex_world_full) (gateway ex_world_full)
    (outbox ex_world_full).

(** ** Vocabulary of the further properties *)

(** One day of the 400-year cycle: the civil date of ordinal [r + 1] gives
    the ordinal back, and its day is at least 1. *)
Definition cycle_ok (r : Z) : bool :=
  let '(y, m, d) := DateTime.ord2ymd (r + 1) in
  (DateTime.ymd2ord y m d =? r + 1) && (1 <=? d).

(** [f] on the [n] integers from [z] on. *)
Fixpoint all_from (n : nat) (z : Z) (f : Z -> bool) : bool :=
  match n with
  | O => true
  | S k => f z && all_from k (z + 1) f
  end.

(** What [create_pre_order] reads of a subscription before it accepts or
    rejects: status, plan and the two limits. *)
Definition quota_view (s : Subscription.t) : SubscriptionStatus * Z * Z * float :=
  (Subscription.status s, Subscription.subscription_plan_id s,
   Subscription.monthly_preorder_limit s, Subscription.total_preorder_value_limit s).

Definition same_quota_inputs (w1 w2 : World) : Prop :=
  clock w1 = clock w2
  /\ pre_orders (session w1) = pre_orders (session w2)
  /\ products (session w1) = products (session w2)
  /\ subscription_plans (session w1) = subscription_plans (session w2)
  /\ forall sid,
       quota_view <$> subscriptions (session w1) !! sid
       = quota_view <$> subscriptions (session w2) !! sid.

(** The row a cancellation leaves of a pre-order. *)
Definition cancelled_row (o : PreOrder.t) : PreOrder.t :=
  if String.eqb (PreOrder.payment_status o) "charged"
  then PreOrder.set_payment_status "refunded" (PreOrder.set_status CANCELLED o)
  else PreOrder.set_status CANCELLED o.

(** A pre-order that [cancel_pre_order] can cancel without raising. *)
Definition refundable (w : World) (o : PreOrder.t) : Prop :=
  is_Some (products (session w) !! PreOrder.product_id o)
  /\ (String.eqb (PreOrder.payment_status o) "charged" = true ->
      refund_payment (gateway w)
        (mkRefund (PreOrder.payment_intent_id o) (PreOrder.total_amount o)) = None).

(** Every pending pre-order of the subscription can be cancelled. *)
Definition cascade_ready (w : World) (sid : Z) : Prop :=
  forall id o,
    pre_orders (session w) !! id = Some o ->
    PreOrder.subscription_id o = sid ->
    PreOrder.status o = PENDING ->
    refundable w o.

(** The example world a day before any billing date. *)
Definition ex_world_early : World :=
  mkWorld ex_db ex_db (ex_now - DateTime.timedelta_days 1) ex_gateway [].

(** [refundable] and [cascade_ready], decided. *)
Definition refundable_b (w : World) (o : PreOrder.t) : bool :=
  match products (session w) !! PreOrder.product_id o with
  | Some _ => true
  | None => false
  end
  && (if String.eqb (PreOrder.payment_status o) "charged"
      then match refund_payment (gateway w)
                   (mkRefund (PreOrder.payment_intent_id o) (PreOrder.total_amount o)) with
           | None => true
           | Some _ => false
           end
      else true).

Definition cascade_ready_b (w : World) (sid : Z) : bool :=
  forallb
    (fun r : Z * PreOrder.t =>
       negb ((PreOrder.subscription_id r.2 =? sid)
             && bool_decide (PreOrder.status r.2 = PENDING))
       || refundable_b w r.2)
    (map_to_list (pre_orders (session w))).

(** ** The subscription lifecycle: creation, pause and resume

    These three functions also read the customers table and send lifecycle
    notifications of their own.  Neither is touched by the pre-order and
    billing code, so both are kept beside its [World]. *)

Module Customer.
Record t := mk {
  company_name : string;
  contact_email : string;
  is_active : bool
}.
End Customer.

(** Modelled from the spec: the remaining one-way sends of the notification
    collaborator. *)
Inductive LifecycleNotification :=
  | send_subscription_welcome (customer_id subscription_id : Z)
  | send_subscription_paused (customer_id subscription_id : Z)
  | send_subscription_resumed (customer_id subscription_id : Z).

Record Service := mkService {
  world : World;
  customers : gmap Z Customer.t;
  lifecycle_outbox : list LifecycleNotification
}.

Definition SM (A : Type) : Type := Service -> (Exn + A) * Service.

Definition sret {A} (a : A) : SM A := fun s => (inr a, s).

Definition sbind {A B} (m : SM A) (k : A -> SM B) : SM B :=
  fun s =>
    match m s with
    | (inl e, s') => (inl e, s')
    | (inr a, s') => k a s'
    end.

Notation "x <~ c ;; k" := (sbind c (fun x => k))
  (at level 100, c at next level, right associativity).
Notation "c ;;; k" := (sbind c (fun _ => k))
  (at level 100, right associativity).

(** A computation of the pre-order and billing code, run on the world. *)
Definition lift {A} (m : M A) : SM A :=
  fun s =>
    let r := m (world s) in
    (r.1, mkService r.2 (customers s) (lifecycle_outbox s)).

Definition get_customers : SM (gmap Z Customer.t) := fun s => (inr (customers s), s).

Definition notify_lifecycle (n : LifecycleNotification) : SM unit :=
  fun s => (inr tt, mkService (world s) (customers s) (n :: lifecycle_outbox s)).

(** [str(e)]: the message an exception was raised with.  For the ORM's own
    error, whose text names the instance, a fixed text stands in. *)
Definition exn_str (e : Exn) : string :=
  match e with
  | ValueError m | AttributeError m | TypeError m | OverflowError m | GatewayError m => m
  | ObjectDeletedError => "Instance has been deleted"
  end.

(** [query(SubscriptionPlan).filter(id == pid, is_active == True).first()] *)
Definition active_plan (db : DB) (pid : Z) : option SubscriptionPlan.t :=
  p ← subscription_plans db !! pid;
  if SubscriptionPlan.is_active p then Some p else None.

(** Whether
    [query(Subscription).filter(customer_id == cid, status == ACTIVE).first()]
    finds a row. *)
Definition has_active_subscription (db : DB) (cid : Z) : bool :=
  existsb
    (fun r : Z * Subscription.t =>
       (Subscription.customer_id r.2 =? cid)
       && bool_decide (Subscription.status r.2 = ACTIVE))
    (map_to_list (subscriptions db)).

(** [billing_frequency] is a string column, documented as holding monthly,
    quarterly or annually; the plans of the model hold one of these three.  For
    any other string the source raises "Invalid billing frequency" (lines
    60-61) after the duplicate check and before the charge, without a write;
    that branch is outside the model, and what is said about a success names
    the frequency among [billing_periods]. *)
Definition create_subscription
    (customer_id subscription_plan_id : Z) (payment_method_id : string)
    (auto_renew : bool) : SM (Z * Subscription.t) :=
  known <~ get_customers ;;
  lift (unwrap (known !! customer_id) (ValueError "Customer not found")) ;;;
  db <~ lift get_session ;;
  plan <~ lift (unwrap (active_plan db subscription_plan_id)
                  (ValueError "Subscription plan not found or inactive")) ;;
  lift (raise_if (has_active_subscription db customer_id)
          (ValueError "Customer already has an active subscription")) ;;;
  start_date <~ lift utcnow ;;
  let next_billing_date :=
    match SubscriptionPlan.billing_frequency plan with
    | MONTHLY => start_date + DateTime.timedelta_days 30
    | QUARTERLY => start_date + DateTime.timedelta_days 90
    | ANNUALLY => start_date + DateTime.timedelta_days 365
    end in
  let end_date := next_billing_date in
  lift (try_except
          (charge (mkCharge customer_id (SubscriptionPlan.price plan) payment_method_id
                     ("Subscription to " +:+ SubscriptionPlan.name plan)))
          (fun e => raise (ValueError ("Payment failed: " +:+ exn_str e)))) ;;;
  let subscription :=
    Subscription.mk customer_id subscription_plan_id ACTIVE start_date
      (Some end_date) (Some next_billing_date)
      (SubscriptionPlan.preorder_limit_per_month plan) 0
      (SubscriptionPlan.preorder_value_limit plan) 0%float
      payment_method_id auto_renew in
  let subscription_id := fresh_id (subscriptions db) in
  lift (modify_session (put_subscription subscription_id subscription)) ;;;
  lift commit ;;;
  notify_lifecycle (send_subscription_welcome customer_id subscription_id) ;;;
  sret (subscription_id, subscription).

Definition pause_subscription (subscription_id : Z) : SM unit :=
  db <~ lift get_session ;;
  subscription <~ lift (unwrap (subscriptions db !! subscription_id)
                          (ValueError "Subscription not found")) ;;
  lift (raise_if (negb (bool_decide (Subscription.status subscription = ACTIVE)))
          (ValueError "Can only pause active subscriptions")) ;;;
  lift (modify_session
          (put_subscription subscription_id
             (Subscription.set_status PAUSED subscription))) ;;;
  lift commit ;;;
  notify_lifecycle
    (send_subscription_paused (Subscription.customer_id subscription) subscription_id).

Definition resume_subscription (subscription_id : Z) : SM unit :=
  db <~ lift get_session ;;
  subscription <~ lift (unwrap (subscriptions db !! subscription_id)
                          (ValueError "Subscription not found")) ;;
  lift (raise_if (negb (bool_decide (Subscription.status subscription = PAUSED)))
          (ValueError "Can only resume paused subscriptions")) ;;;
  lift (modify_session
          (put_subscription subscription_id
             (Subscription.set_status ACTIVE subscription))) ;;;
  lift commit ;;;
  notify_lifecycle
    (send_subscription_resumed (Subscription.customer_id subscription) subscription_id).

(** ** Analytics *)

(** The dictionary [get_subscription_analytics] returns, key by key. *)
Module Analytics.
Record t := mk {
  subscription_id : Z;
  total_pre_orders : Z;
  total_order_value : float;
  average_order_value : float;
  current_month_orders : Z;
  current_month_value : float;
  subscription_start_date : datetime;
  subscription_status : SubscriptionStatus;
  plan_name : string
}.
End Analytics.

(** The rows of [query(PreOrder).filter(...)] for a filter [f]. *)
Definition pre_orders_where (db : DB) (f : PreOrder.t -> bool) : list PreOrder.t :=
  List.filter f ((map_to_list (pre_orders db)).*2).

(** [subscription_id == sid] *)
Definition of_subscription (sid : Z) (o : PreOrder.t) : bool :=
  PreOrder.subscription_id o =? sid.

(** [subscription_id == sid, status != CANCELLED] *)
Definition of_subscription_live (sid : Z) (o : PreOrder.t) : bool :=
  (PreOrder.subscription_id o =? sid)
  && negb (bool_decide (PreOrder.status o = CANCELLED)).

(** [subscription_id == sid, created_at >= start] *)
Definition of_subscription_since (sid : Z) (start : datetime) (o : PreOrder.t) : bool :=
  (PreOrder.subscription_id o =? sid) && (start <=? PreOrder.created_at o).

Definition get_subscription_analytics (subscription_id : Z) : M Analytics.t :=
  db <- get_session ;;
  subscription <- unwrap (subscriptions db !! subscription_id)
                    (ValueError "Subscription not found") ;;
  let total_pre_orders :=
    Z.of_nat (length (pre_orders_where db (of_subscription subscription_id))) in
  let total_value :=
    Py.float_or
      (sql_sum (PreOrder.total_amount
                  <$> pre_orders_where db (of_subscription_live subscription_id)))
      0%float in
  avg_order_value <-
    (if 0 <? total_pre_orders
     then n <- to_float total_pre_orders ;; ret (total_value / n)%float
     else ret 0%float) ;;
  now <- utcnow ;;
  let current_month_start := DateTime.month_start now in
  let monthly_orders :=
    Z.of_nat (length (pre_orders_where db
                        (of_subscription_since subscription_id current_month_start))) in
  let monthly_value := current_month_value db subscription_id now in
  plan <- unwrap (subscription_plan db subscription)
            (AttributeError "'NoneType' object has no attribute 'name'") ;;
  ret (Analytics.mk subscription_id total_pre_orders total_value avg_order_value
         monthly_orders monthly_value (Subscription.start_date subscription)
         (Subscription.status subscription) (SubscriptionPlan.name plan)).

(** ** Vocabulary of the lifecycle and analytics properties *)

(** Whether a notification reports the outcome of a renewal attempt on
    subscription [sid].  The sweep sends one for every subscription it tries
    to renew: [send_billing_success] after the commit, [send_billing_failed]
    from its exception handler. *)
Definition billing_notice_of (sid : Z) (n : Notification) : bool :=
  match n with
  | send_billing_success _ s _ | send_billing_failed _ s _ => s =? sid
  | _ => false
  end.

(** The billing frequencies [create_subscription] knows, with their periods in
    days; for any other value of the column it raises "Invalid billing
    frequency". *)
Definition billing_periods : list (PaymentFrequency * Z) :=
  [(MONTHLY, 30); (QUARTERLY, 90); (ANNUALLY, 365)].

(** The subscription [create_subscription] stores for a plan. *)
Definition new_subscription (now : datetime) (cid pid : Z) (method : string)
    (auto_renew : bool) (plan : SubscriptionPlan.t) : Subscription.t :=
  let due := now + DateTime.timedelta_days
                     (period_days (SubscriptionPlan.billing_frequency plan)) in
  Subscription.mk cid pid ACTIVE now (Some due) (Some due)
    (SubscriptionPlan.preorder_limit_per_month plan) 0
    (SubscriptionPlan.preorder_value_limit plan) 0%float method auto_renew.

(** The first charge of a subscription. *)
Definition initial_charge (cid : Z) (method : string) (plan : SubscriptionPlan.t)
    : ChargeRequest :=
  mkCharge cid (SubscriptionPlan.price plan) method
    ("Subscription to " +:+ SubscriptionPlan.name plan).

(** A service whose session was written to and committed. *)
Definition service_committed (s : Service) (db : DB)
    (sent : list LifecycleNotification) : Service :=
  mkService (mkWorld db db (clock (world s)) (gateway (world s)) (outbox (world s)))
    (customers s) sent.

(** An example service around the example world. *)
Definition ex_service : Service :=
  mkService ex_world
    (<[9 := Customer.mk "Kilimo Traders" "orders@kilimo.example" true]>
       (<[8 := Customer.mk "Baraka Stores" "ops@baraka.example" true]>
          {[ 7 := Customer.mk "Amani Wholesale" "buy@amani.example" true ]}))
    [].

(** The example service with subscription 1 paused, and with a subscription
    created for customer 9. *)
Definition ex_service_paused : Service := (pause_subscription 1 ex_service).2.
Definition ex_service_joined : Service :=
  (create_subscription 9 1 "pm_9" true ex_service).2.

(** Subscription 1 after two pre-orders, the first of them cancelled. *)
Definition ex_world_one_cancelled : World := after (cancel_pre_order 1) ex_world_full.

(** * Verification *)

Ltac unfold_m :=
  unfold bind, ret, raise, raise_if, unwrap, get_session, modify_session,
    commit, utcnow, notify, charge, refund, try_except, to_float, add_days in *.

Ltac mstep := unfold bind at 1; simpl.

Lemma active_subscription_Some db sid s :
  active_subscription db sid = Some s <->
  subscriptions db !! sid = Some s /\ Subscription.status s = ACTIVE.
Proof.
  unfold active_subscription. destruct (subscriptions db !! sid) as [s'|]; simpl.
  - case_bool_decide as Hst; split.
    + intros [= ->]. auto.
    + intros [[= ->] _]. reflexivity.
    + discriminate.
    + intros [[= ->] ?]. contradiction.
  - split; [discriminate | intros [? _]; discriminate].
Qed.

Lemma eligible_product_Some db pid p :
  eligible_product db pid = Some p <->
  products db !! pid = Some p /\ Product.is_active p = true
  /\ Product.is_pre_order_eligible p = true.
Proof.
  unfold eligible_product. destruct (products db !! pid) as [p'|]; simpl.
  - destruct (Product.is_active p') eqn:Ea, (Product.is_pre_order_eligible p') eqn:Ee;
      simpl; split; try discriminate; try (intros [= <-]; auto);
      intros [[= <-] [? ?]]; congruence.
  - split; [discriminate | intros [? _]; discriminate].
Qed.

Lemma validate_count_rejected w sid sub p q :
  0 < Subscription.monthly_preorder_limit sub ->
  Subscription.monthly_preorder_limit sub <= current_month_orders (session w) sid (clock w) ->
  _validate_subscription_limits sid sub p q w = (inl QuotaExceeded_count, w).
Proof.
  intros Hpos Hcnt. unfold _validate_subscription_limits. unfold_m. simpl.
  rewrite (proj2 (Z.ltb_lt _ _) Hpos), (proj2 (Z.leb_le _ _) Hcnt). reflexivity.
Qed.

(** C1.  When the subscription's monthly limit is positive and the number of
    its non-cancelled pre-orders created since the start of the current
    calendar month has reached it, [create_pre_order] is rejected and the
    world is the one it started from: no counter, no stored pre-order, neither
    the session nor the committed store changes.  Once the checks that come
    first in [create_pre_order] pass (active subscription, eligible product,
    open window, product capacity), the rejection is [QuotaExceeded(count)]. *)
Theorem create_pre_order_count_quota w sid pid q var prio sub :
  subscriptions (session w) !! sid = Some sub ->
  0 < Subscription.monthly_preorder_limit sub ->
  Subscription.monthly_preorder_limit sub
    <= current_month_orders (session w) sid (clock w) ->
  (exists e, create_pre_order sid pid q var prio w = (inl e, w))
  /\ (forall p,
        Subscription.status sub = ACTIVE ->
        eligible_product (session w) pid = Some p ->
        not_started (clock w) p = false ->
        ended (clock w) p = false ->
        over_capacity p q = false ->
        create_pre_order sid pid q var prio w = (inl QuotaExceeded_count, w)).
Proof.
  intros Hsub Hpos Hcnt.
  split.
  - unfold create_pre_order. unfold bind at 1. simpl.
    unfold bind at 1. destruct (active_subscription (session w) sid) as [s|] eqn:Es; simpl; [|eauto].
    assert (s = sub) as -> by (apply active_subscription_Some in Es as [Hs _]; congruence).
    unfold bind at 1. destruct (eligible_product (session w) pid) as [p|]; simpl; [|eauto].
    unfold bind at 1. simpl.
    unfold bind at 1. destruct (not_started (clock w) p); simpl; [eauto|].
    unfold bind at 1. destruct (ended (clock w) p); simpl; [eauto|].
    unfold bind at 1. destruct (over_capacity p q); simpl; [eauto|].
    unfold bind at 1. rewrite validate_count_rejected by done. eauto.
  - intros p Hst Hp Hns He Hcap.
    assert (Ha : active_subscription (session w) sid = Some sub)
      by (apply active_subscription_Some; done).
    unfold create_pre_order. unfold bind at 1. simpl.
    unfold bind at 1. rewrite Ha. simpl.
    unfold bind at 1. rewrite Hp. simpl.
    unfold bind at 1. simpl.
    unfold bind at 1. rewrite Hns. simpl.
    unfold bind at 1. rewrite He. simpl.
    unfold bind at 1. rewrite Hcap. simpl.
    unfold bind at 1. rewrite validate_count_rejected by done. done.
Qed.

Lemma SFcompare_Eq_sym a b : SFcompare a b = Some Eq -> SFcompare b a = Some Eq.
Proof.
  destruct a as [sa|sa| |sa ma ea], b as [sb|sb| |sb mb eb]; simpl; try done;
    try (destruct sa; done); try (destruct sb; done).
  - destruct sa, sb; done.
  - rewrite (Z.compare_antisym ea eb).
    change (PosDef.Pos.compare_cont Eq mb ma) with (Pos.compare mb ma).
    change (PosDef.Pos.compare_cont Eq ma mb) with (Pos.compare ma mb).
    rewrite (Pos.compare_antisym ma mb).
    destruct sa, sb; try done; destruct (ea ?= eb); simpl; try done;
      destruct (ma ?= mb)%positive; simpl; done.
Qed.

Lemma float_eqb_not_gt (x y : float) :
  (x =? y)%float = true -> Py.float_gt x y = false.
Proof.
  unfold Py.float_gt. rewrite FloatAxioms.eqb_spec, FloatAxioms.ltb_spec. unfold SFeqb, SFltb.
  destruct (SFcompare (Prim2SF x) (Prim2SF y)) as [[]|] eqn:E; try done.
  intros _. rewrite (SFcompare_Eq_sym _ _ E). done.
Qed.

Lemma validate_cases w sid sub p q :
  _validate_subscription_limits sid sub p q w =
    (if count_exceeded w sid sub then inl QuotaExceeded_count
     else
       match subscription_plan (session w) sub with
       | None =>
           inl (AttributeError "'NoneType' object has no attribute 'discount_percentage'")
       | Some plan =>
           match Py.float_of_int q with
           | None => inl (OverflowError "int too large to convert to float")
           | Some qf =>
               if value_exceeded w sid sub (order_total p plan qf)
               then inl QuotaExceeded_value else inr tt
           end
       end, w).
Proof.
  unfold count_exceeded, value_exceeded, order_total, _validate_subscription_limits.
  mstep. mstep. mstep.
  destruct (_ && _); simpl; [done|].
  mstep. destruct (subscription_plan (session w) sub); simpl; [|done].
  mstep. unfold to_float. destruct (Py.float_of_int q); simpl; [|done].
  destruct (_ && _); done.
Qed.

Lemma validate_world w sid sub p q : (_validate_subscription_limits sid sub p q w).2 = w.
Proof. rewrite validate_cases. done. Qed.

Lemma validate_run w sid sub p q plan qf :
  count_exceeded w sid sub = false ->
  subscription_plan (session w) sub = Some plan ->
  Py.float_of_int q = Some qf ->
  _validate_subscription_limits sid sub p q w =
    (if value_exceeded w sid sub (order_total p plan qf)
     then inl QuotaExceeded_value else inr tt, w).
Proof. intros Hc Hp Hq. rewrite validate_cases, Hc, Hp, Hq. done. Qed.

Lemma validate_count w sid sub p q :
  count_exceeded w sid sub = true ->
  _validate_subscription_limits sid sub p q w = (inl QuotaExceeded_count, w).
Proof. intros Hc. rewrite validate_cases, Hc. done. Qed.

Lemma validate_ok_inv w sid sub p q w' :
  _validate_subscription_limits sid sub p q w = (inr tt, w') ->
  exists plan qf,
    count_exceeded w sid sub = false
    /\ subscription_plan (session w) sub = Some plan
    /\ Py.float_of_int q = Some qf
    /\ value_exceeded w sid sub (order_total p plan qf) = false.
Proof.
  rewrite validate_cases.
  destruct (count_exceeded w sid sub); [done|].
  destruct (subscription_plan (session w) sub) as [plan|]; [|done].
  destruct (Py.float_of_int q) as [qf|]; [|done].
  destruct (value_exceeded _ _ _ _) eqn:Hv; [done|].
  intros _. exists plan, qf. done.
Qed.

Lemma create_pre_order_run w sid pid q var prio sub p :
  active_subscription (session w) sid = Some sub ->
  eligible_product (session w) pid = Some p ->
  not_started (clock w) p = false ->
  ended (clock w) p = false ->
  over_capacity p q = false ->
  create_pre_order sid pid q var prio w =
    match _validate_subscription_limits sid sub p q w with
    | (inl e, _) => (inl e, w)
    | (inr _, _) =>
        match subscription_plan (session w) sub, Py.float_of_int q with
        | Some plan, Some qf =>
            let o := created_pre_order (clock w) sid pid q var prio sub p plan qf in
            let id := fresh_id (pre_orders (session w)) in
            (inr (id, o), world_after_create w sid pid q sub p id o)
        | None, _ =>
            (inl (AttributeError "'NoneType' object has no attribute 'discount_percentage'"), w)
        | Some _, None =>
            (inl (OverflowError "int too large to convert to float"), w)
        end
    end.
Proof.
  intros Ha Hp Hns He Hcap.
  unfold create_pre_order. mstep. mstep. rewrite Ha. simpl.
  mstep. rewrite Hp. simpl. mstep. mstep. rewrite Hns. simpl.
  mstep. rewrite He. simpl. mstep. rewrite Hcap. simpl.
  mstep. pose proof (validate_world w sid sub p q) as Hw.
  destruct (_validate_subscription_limits sid sub p q w) as [[e|[]] w']; simpl in Hw; subst w'.
  - reflexivity.
  - mstep. destruct (subscription_plan (session w) sub) as [plan|]; simpl; [|done].
    mstep. unfold to_float. destruct (Py.float_of_int q) as [qf|]; simpl; [|done].
    reflexivity.
Qed.

Lemma create_pre_order_inv w sid pid q var prio id o w1 :
  create_pre_order sid pid q var prio w = (inr (id, o), w1) ->
  exists sub p plan qf,
    active_subscription (session w) sid = Some sub
    /\ eligible_product (session w) pid = Some p
    /\ not_started (clock w) p = false
    /\ ended (clock w) p = false
    /\ over_capacity p q = false
    /\ count_exceeded w sid sub = false
    /\ subscription_plan (session w) sub = Some plan
    /\ Py.float_of_int q = Some qf
    /\ value_exceeded w sid sub (order_total p plan qf) = false
    /\ id = fresh_id (pre_orders (session w))
    /\ o = created_pre_order (clock w) sid pid q var prio sub p plan qf
    /\ w1 = world_after_create w sid pid q sub p id o.
Proof.
  intros H.
  destruct (active_subscription (session w) sid) as [sub|] eqn:Ha;
    [|revert H; unfold create_pre_order; mstep; mstep; rewrite Ha; done].
  destruct (eligible_product (session w) pid) as [p|] eqn:Hp;
    [|revert H; unfold create_pre_order; mstep; mstep; rewrite Ha; simpl; mstep;
      rewrite Hp; done].
  destruct (not_started (clock w) p) eqn:Hns;
    [revert H; unfold create_pre_order; mstep; mstep; rewrite Ha; simpl; mstep;
      rewrite Hp; simpl; mstep; mstep; rewrite Hns; done|].
  destruct (ended (clock w) p) eqn:He;
    [revert H; unfold create_pre_order; mstep; mstep; rewrite Ha; simpl; mstep;
      rewrite Hp; simpl; mstep; mstep; rewrite Hns; simpl; mstep; rewrite He; done|].
  destruct (over_capacity p q) eqn:Hcap;
    [revert H; unfold create_pre_order; mstep; mstep; rewrite Ha; simpl; mstep;
      rewrite Hp; simpl; mstep; mstep; rewrite Hns; simpl; mstep; rewrite He; simpl;
      mstep; rewrite Hcap; done|].
  rewrite (create_pre_order_run w sid pid q var prio sub p) in H by done.
  destruct (_validate_subscription_limits sid sub p q w) as [[e|[]] w'] eqn:Hv; [done|].
  apply validate_ok_inv in Hv as (plan & qf & Hc & Hpl & Hq & Hval).
  rewrite Hpl, Hq in H. simpl in H. injection H as <- <- <-.
  exists sub, p, plan, qf. done.
Qed.

(** C2.  With the earlier checks passed, the month's usage is the sum, in
    doubles, of [total_amount] over the pre-orders of this subscription that
    are not cancelled and were created at or after the first instant of the
    current month.  While the count quota is not exhausted, a subscription
    whose value limit is positive is rejected with [QuotaExceeded(value)]
    exactly when that sum plus [order_total] is strictly greater than the
    limit, where [order_total] is
    [(unit_price - unit_price * (discount_percentage / 100)) * quantity];
    a cumulative value equal to the limit is accepted; and a limit that is not
    positive, zero in particular, is never checked.  When the count quota is
    exhausted the call is rejected with [QuotaExceeded(count)], whatever the
    value. *)
Theorem create_pre_order_value_quota w sid pid q var prio sub p plan qf :
  active_subscription (session w) sid = Some sub ->
  eligible_product (session w) pid = Some p ->
  not_started (clock w) p = false ->
  ended (clock w) p = false ->
  over_capacity p q = false ->
  subscription_plan (session w) sub = Some plan ->
  Py.float_of_int q = Some qf ->
  let unit_price := unit_price_of p in
  let order_total :=
    ((unit_price - unit_price * (SubscriptionPlan.discount_percentage plan / 100)) * qf)%float in
  let counted (o : PreOrder.t) :=
    (PreOrder.subscription_id o =? sid)
    && (DateTime.month_start (clock w) <=? PreOrder.created_at o)
    && negb (bool_decide (PreOrder.status o = CANCELLED)) in
  let rows := List.filter counted (map_to_list (pre_orders (session w))).*2 in
  let used :=
    match PreOrder.total_amount <$> rows with
    | [] => 0%float
    | x :: rest =>
        let total := fold_left PrimFloat.add rest x in
        if is_zero total then 0%float else total
    end in
  let limit := Subscription.total_preorder_value_limit sub in
  let count_limit := Subscription.monthly_preorder_limit sub in
  let count_reached := 0 < count_limit /\ count_limit <= Z.of_nat (length rows) in
  let accepted := exists r w', create_pre_order sid pid q var prio w = (inr r, w') in
  (count_reached ->
     create_pre_order sid pid q var prio w = (inl QuotaExceeded_count, w))
  /\ (~ count_reached ->
      ((0 <? limit)%float = true ->
         (create_pre_order sid pid q var prio w = (inl QuotaExceeded_value, w)
          <-> (limit <? used + order_total)%float = true)
         /\ ((limit <? used + order_total)%float = false -> accepted)
         /\ ((used + order_total =? limit)%float = true -> accepted))
      /\ ((0 <? limit)%float = false -> accepted)).
Proof.
  intros Ha Hp Hns He Hcap Hpl Hq unit_price total counted rows used limit
    count_limit count_reached accepted.
  pose proof (create_pre_order_run w sid pid q var prio sub p Ha Hp Hns He Hcap) as Hrun.
  assert (Hrows : month_pre_orders (session w) sid (DateTime.month_start (clock w)) = rows)
    by reflexivity.
  assert (Hused : current_month_value (session w) sid (clock w) = used).
  { unfold current_month_value, used. rewrite Hrows.
    destruct (PreOrder.total_amount <$> rows) as [|x rest]; [reflexivity|].
    unfold sql_sum, Py.float_or, Py.float_truthy.
    destruct (is_zero (fold_left PrimFloat.add rest x)); reflexivity. }
  assert (Hcount : count_exceeded w sid sub = true <-> count_reached).
  { unfold count_exceeded, current_month_orders, count_reached. rewrite Hrows.
    rewrite andb_true_iff, Z.ltb_lt, Z.leb_le. reflexivity. }
  split.
  - intros Hc. apply Hcount in Hc.
    rewrite (validate_count w sid sub p q Hc) in Hrun. exact Hrun.
  - intros Hn.
    assert (Hc : count_exceeded w sid sub = false).
    { destruct (count_exceeded w sid sub); [|reflexivity].
      exfalso. apply Hn, Hcount. reflexivity. }
    rewrite (validate_run w sid sub p q plan qf Hc Hpl Hq) in Hrun.
    rewrite Hpl, Hq in Hrun.
    change (order_total p plan qf) with total in Hrun.
    unfold value_exceeded, Py.float_gt in Hrun.
    rewrite Hused in Hrun. fold limit in Hrun.
    assert (Hacc : (0 <? limit)%float && (limit <? used + total)%float = false -> accepted).
    { intros Hv. rewrite Hv in Hrun. unfold accepted. eauto. }
    split.
    + intros Hpos. rewrite Hpos in Hrun, Hacc. simpl in Hrun, Hacc. repeat split.
      * intros Hrej. destruct (limit <? used + total)%float; [done|].
        rewrite Hrun in Hrej. discriminate.
      * intros Hgt. rewrite Hgt in Hrun. exact Hrun.
      * exact Hacc.
      * intros Heq. apply Hacc. apply float_eqb_not_gt in Heq. exact Heq.
    + intros Hz. apply Hacc. rewrite Hz. done.
Qed.

(** C8.  Cancelling a pre-order that is [processing] or [fulfilled] is
    rejected with [InvalidState] and leaves the world as it was: statuses,
    payment status and all counters, in the session and in the store.  A
    pre-order that is already [cancelled] is rejected the same way. *)
Theorem cancel_pre_order_invalid_state w id o :
  pre_orders (session w) !! id = Some o ->
  (PreOrder.status o = PROCESSING \/ PreOrder.status o = FULFILLED ->
     cancel_pre_order id w = (inl InvalidState_not_cancellable, w))
  /\ (PreOrder.status o = CANCELLED ->
     cancel_pre_order id w = (inl InvalidState_already_cancelled, w)).
Proof.
  intros Ho. split.
  - intros Hs. unfold cancel_pre_order. mstep. mstep. rewrite Ho. simpl.
    mstep. rewrite bool_decide_eq_false_2 by (destruct Hs as [-> | ->]; done). simpl.
    mstep. destruct Hs as [-> | ->]; done.
  - intros Hs. unfold cancel_pre_order. mstep. mstep. rewrite Ho. simpl.
    mstep. rewrite Hs. done.
Qed.

(** C9, amended.  The pre-order a successful [create_pre_order] stores has
    [total_amount = (unit_price - unit_price * (discount_percentage / 100))
    * quantity] and [discount_applied = unit_price * (discount_percentage /
    100) * quantity], with the discount of the subscription's plan, where
    [unit_price] is the product's [pre_order_price] when that is set and not
    zero, and its [base_price] otherwise. *)
Theorem create_pre_order_pricing w sid pid q var prio id o w1 :
  create_pre_order sid pid q var prio w = (inr (id, o), w1) ->
  exists sub p plan qf,
    subscriptions (session w) !! sid = Some sub
    /\ products (session w) !! pid = Some p
    /\ subscription_plans (session w) !! Subscription.subscription_plan_id sub = Some plan
    /\ Py.float_of_int q = Some qf
    /\ pre_orders (session w1) !! id = Some o
    /\ PreOrder.quantity o = q
    /\ PreOrder.unit_price o =
         match Product.pre_order_price p with
         | Some x => if is_zero x then Product.base_price p else x
         | None => Product.base_price p
         end
    /\ let u := PreOrder.unit_price o in
       let d := SubscriptionPlan.discount_percentage plan in
       PreOrder.total_amount o = ((u - u * (d / 100)) * qf)%float
       /\ PreOrder.discount_applied o = ((u * (d / 100)) * qf)%float.
Proof.
  intros H. apply create_pre_order_inv in H
    as (sub & p & plan & qf & Ha & Hp & _ & _ & _ & _ & Hpl & Hq & _ & -> & -> & ->).
  apply active_subscription_Some in Ha as [Ha _].
  apply eligible_product_Some in Hp as [Hp _].
  exists sub, p, plan, qf. repeat split; try done.
  - simpl. apply lookup_insert_eq.
  - simpl. unfold unit_price_of, Py.float_or, Py.float_truthy.
    destruct (Product.pre_order_price p) as [x|]; [|done]. destruct (is_zero x); done.
Qed.

Lemma forget_counters_fields s1 s2 :
  forget_counters s1 = forget_counters s2 ->
  Subscription.status s1 = Subscription.status s2
  /\ Subscription.subscription_plan_id s1 = Subscription.subscription_plan_id s2
  /\ Subscription.monthly_preorder_limit s1 = Subscription.monthly_preorder_limit s2
  /\ Subscription.total_preorder_value_limit s1 = Subscription.total_preorder_value_limit s2.
Proof. destruct s1, s2. unfold forget_counters. simpl. intros [= -> -> -> -> -> -> -> -> -> ->]. done. Qed.

Lemma validate_outcome_agree w1 w2 sid s1 s2 p q :
  same_but_counters w1 w2 ->
  forget_counters s1 = forget_counters s2 ->
  outcome (_validate_subscription_limits sid s1 p q w1)
  = outcome (_validate_subscription_limits sid s2 p q w2).
Proof.
  intros (Hclk & Hpo & Hpr & Hpl & Hsubs) (Hst & Hpid & Hlim & Hval)%forget_counters_fields.
  rewrite !validate_cases.
  unfold outcome, count_exceeded, value_exceeded, current_month_orders,
    current_month_value, month_pre_orders, subscription_plan. simpl.
  rewrite Hclk, Hpo, Hpl, Hpid, Hlim, Hval. reflexivity.
Qed.

(** C10.  Two worlds that agree on the stored pre-orders, products, plans,
    clock and on every field of every subscription but
    [current_month_preorders] and [current_preorder_value] give the same
    outcome, acceptance or the same exception, to the same
    [create_pre_order] call. *)
Theorem quota_decision_ignores_counters w1 w2 sid pid q var prio :
  same_but_counters w1 w2 ->
  outcome (create_pre_order sid pid q var prio w1)
  = outcome (create_pre_order sid pid q var prio w2).
Proof.
  intros Hsame. pose proof Hsame as (Hclk & Hpo & Hpr & Hpl & Hsubs).
  assert (Hrow : forget_counters <$> subscriptions (session w1) !! sid
                 = forget_counters <$> subscriptions (session w2) !! sid)
    by (rewrite <- !lookup_fmap, Hsubs; done).
  destruct (active_subscription (session w1) sid) as [s1|] eqn:Ha1;
    destruct (active_subscription (session w2) sid) as [s2|] eqn:Ha2.
  - pose proof Ha1 as [Hs1 Hst1]%active_subscription_Some.
    pose proof Ha2 as [Hs2 Hst2]%active_subscription_Some.
    rewrite Hs1, Hs2 in Hrow.
    apply (inj Some (forget_counters s1) (forget_counters s2)) in Hrow as Hf.
    assert (He : eligible_product (session w1) pid = eligible_product (session w2) pid)
      by (unfold eligible_product; rewrite Hpr; done).
    destruct (eligible_product (session w2) pid) as [p|] eqn:Hp2.
    2:{ unfold outcome, create_pre_order. mstep. mstep. rewrite Ha1. simpl. mstep. rewrite He. simpl.
        mstep. mstep. rewrite Ha2. simpl. mstep. rewrite Hp2. done. }
    destruct (not_started (clock w2) p) eqn:Hns.
    { unfold outcome, create_pre_order. mstep. mstep. rewrite Ha1. simpl. mstep. rewrite He. simpl.
      mstep. mstep. rewrite Hclk, Hns. simpl.
      mstep. mstep. rewrite Ha2. simpl. mstep. rewrite Hp2. simpl. mstep. mstep. rewrite Hns. done. }
    destruct (ended (clock w2) p) eqn:Hen.
    { unfold outcome, create_pre_order. mstep. mstep. rewrite Ha1. simpl. mstep. rewrite He. simpl.
      mstep. mstep. rewrite Hclk, Hns. simpl. mstep. rewrite Hen. simpl.
      mstep. mstep. rewrite Ha2. simpl. mstep. rewrite Hp2. simpl. mstep. mstep. rewrite Hns. simpl.
      mstep. rewrite Hen. done. }
    destruct (over_capacity p q) eqn:Hcap.
    { unfold outcome, create_pre_order. mstep. mstep. rewrite Ha1. simpl. mstep. rewrite He. simpl.
      mstep. mstep. rewrite Hclk, Hns. simpl. mstep. rewrite Hen. simpl. mstep. rewrite Hcap. simpl.
      mstep. mstep. rewrite Ha2. simpl. mstep. rewrite Hp2. simpl. mstep. mstep. rewrite Hns. simpl.
      mstep. rewrite Hen. simpl. mstep. rewrite Hcap. done. }
    rewrite (create_pre_order_run w1 sid pid q var prio s1 p) by (rewrite ?Hclk; done).
    rewrite (create_pre_order_run w2 sid pid q var prio s2 p) by done.
    pose proof (validate_outcome_agree w1 w2 sid s1 s2 p q Hsame Hf) as Hv.
    unfold outcome in Hv.
    destruct (_validate_subscription_limits sid s1 p q w1) as [[e1|[]] w1'] eqn:Hv1;
      destruct (_validate_subscription_limits sid s2 p q w2) as [[e2|[]] w2'] eqn:Hv2;
      simpl in Hv; try done.
    apply validate_ok_inv in Hv1 as (plan1 & qf1 & _ & Hpl1 & Hq1 & _).
    apply validate_ok_inv in Hv2 as (plan2 & qf2 & _ & Hpl2 & Hq2 & _).
    rewrite Hpl1, Hpl2, Hq1. done.
  - exfalso. apply active_subscription_Some in Ha1 as [Hs1 Hst1].
    rewrite Hs1 in Hrow.
    destruct (subscriptions (session w2) !! sid) as [s2|] eqn:Hs2; [|done].
    apply (inj Some (forget_counters s1) (forget_counters s2)) in Hrow as Hf.
    apply forget_counters_fields in Hf as (Hst & _).
    assert (active_subscription (session w2) sid = Some s2)
      by (apply active_subscription_Some; split; congruence).
    congruence.
  - exfalso. apply active_subscription_Some in Ha2 as [Hs2 Hst2].
    rewrite Hs2 in Hrow.
    destruct (subscriptions (session w1) !! sid) as [s1|] eqn:Hs1; [|done].
    apply (inj Some (forget_counters s1) (forget_counters s2)) in Hrow as Hf.
    apply forget_counters_fields in Hf as (Hst & _).
    assert (active_subscription (session w1) sid = Some s1)
      by (apply active_subscription_Some; split; congruence).
    congruence.
  - unfold outcome, create_pre_order. mstep. mstep. rewrite Ha1. simpl.
    mstep. mstep. rewrite Ha2. done.
Qed.

Lemma renewal_cases w sid :
  _process_subscription_renewal sid w =
    match subscriptions (session w) !! sid with
    | None => (inl ObjectDeletedError, w)
    | Some sub =>
        match renewal_result w sub with
        | inl e => (inl e, w)
        | inr sub' => (inr tt, world_after_renewal w sid sub')
        end
    end.
Proof.
  unfold _process_subscription_renewal, renewal_result, renewal_charge. mstep. mstep.
  destruct (subscriptions (session w) !! sid) as [sub|]; simpl; [|done].
  mstep. destruct (subscription_plan (session w) sub) as [plan|] eqn:Hpl; simpl; [|done].
  mstep. unfold charge at 1.
  destruct (charge_subscription (gateway w) _) as [e|]; simpl; [done|].
  mstep.
  destruct (SubscriptionPlan.billing_frequency plan);
    (mstep; unfold add_days; mstep;
     destruct (Subscription.next_billing_date sub) as [d|]; simpl; [|done];
     unfold world_after_renewal, subscription_plan in *; simpl; rewrite Hpl; reflexivity).
Qed.

Lemma process_billing_cycle_unfold w :
  process_billing_cycle w
  = for_each (due_subscriptions (session w) (DateTime.date (clock w))) renewal_step w.
Proof. reflexivity. Qed.

Lemma row_after_renewal_ext w w' sub :
  subscription_plans (session w') = subscription_plans (session w) ->
  gateway w' = gateway w ->
  row_after_renewal w' sub = row_after_renewal w sub.
Proof.
  intros Hp Hg. unfold row_after_renewal, renewal_result, subscription_plan.
  rewrite Hp, Hg. reflexivity.
Qed.

Lemma renewal_step_run w r :
  exists w',
    renewal_step r w = (inr tt, w')
    /\ subscription_plans (session w') = subscription_plans (session w)
    /\ products (session w') = products (session w)
    /\ pre_orders (session w') = pre_orders (session w)
    /\ gateway w' = gateway w
    /\ clock w' = clock w
    /\ (forall sid,
          subscriptions (session w') !! sid
          = if bool_decide (sid = r.1)
            then row_after_renewal w <$> subscriptions (session w) !! sid
            else subscriptions (session w) !! sid)
    /\ ((session w' = session w /\ committed w' = committed w)
        \/ committed w' = session w').
Proof.
  unfold renewal_step, try_except. rewrite renewal_cases.
  destruct (subscriptions (session w) !! r.1) as [sub|] eqn:Hs.
  - unfold row_after_renewal.
    destruct (renewal_result w sub) as [e|sub'] eqn:Hr.
    + eexists. split; [reflexivity|]. simpl. repeat split; auto.
      intros sid. case_bool_decide as Hsid; [|done]. subst sid. rewrite Hs. simpl.
      rewrite Hr. done.
    + eexists. split; [reflexivity|]. simpl. repeat split; auto.
      intros sid. case_bool_decide as Hsid.
      * subst sid. rewrite Hs. simpl. rewrite Hr. apply lookup_insert_eq.
      * apply lookup_insert_ne. done.
  - eexists. split; [reflexivity|]. simpl. repeat split; auto.
    intros sid. case_bool_decide as Hsid; [|done]. subst sid. rewrite Hs. done.
Qed.

Lemma sweep_rows (w0 : World) (l : list (Z * Subscription.t)) :
  NoDup l.*1 ->
  forall w,
    subscription_plans (session w) = subscription_plans (session w0) ->
    gateway w = gateway w0 ->
    exists w',
      for_each l renewal_step w = (inr tt, w')
      /\ subscription_plans (session w') = subscription_plans (session w0)
      /\ products (session w') = products (session w)
      /\ pre_orders (session w') = pre_orders (session w)
      /\ gateway w' = gateway w0
      /\ clock w' = clock w
      /\ (forall sid,
            subscriptions (session w') !! sid
            = if bool_decide (sid ∈ l.*1)
              then row_after_renewal w0 <$> subscriptions (session w) !! sid
              else subscriptions (session w) !! sid)
      /\ ((session w' = session w /\ committed w' = committed w)
          \/ committed w' = session w').
Proof.
  induction l as [|r l IH]; intros Hnd w Hpl Hgw.
  - exists w. simpl. repeat split; auto.
  - simpl in Hnd. apply NoDup_cons in Hnd as [Hr Hnd].
    destruct (renewal_step_run w r) as (w1 & Hstep & Hpl1 & Hpr1 & Hpo1 & Hgw1 & Hck1 & Hrows1 & Hc1).
    destruct (IH Hnd w1) as (w' & Hrest & Hpl' & Hpr' & Hpo' & Hgw' & Hck' & Hrows' & Hc').
    { congruence. } { congruence. }
    exists w'. simpl. unfold bind. rewrite Hstep. rewrite Hrest.
    repeat split; try congruence.
    + intros sid. rewrite Hrows', Hrows1.
      destruct (decide (sid = r.1)) as [->|Hne].
      * rewrite (bool_decide_eq_false_2 (r.1 ∈ l.*1)) by done.
        rewrite bool_decide_eq_true_2 by done.
        rewrite bool_decide_eq_true_2 by (apply list_elem_of_here).
        destruct (subscriptions (session w) !! r.1) as [s|]; simpl; [|done].
        rewrite (row_after_renewal_ext w0 w) by done. done.
      * rewrite (bool_decide_eq_false_2 (sid = r.1)) by done.
        destruct (decide (sid ∈ l.*1)) as [Hin|Hnin].
        -- rewrite !bool_decide_eq_true_2; [done| |done]. apply list_elem_of_further. done.
        -- rewrite !bool_decide_eq_false_2; [done| |done].
           intros [?|?]%elem_of_cons; done.
    + destruct Hc' as [[Hs' Hcm']|Hcm']; [|right; done].
      destruct Hc1 as [[Hs1 Hcm1]|Hcm1]; [left; split; congruence|].
      right. congruence.
Qed.

Lemma filter_fst_elem {A} (f : Z * A -> bool) (l : list (Z * A)) k :
  k ∈ (List.filter f l).*1 -> k ∈ l.*1.
Proof.
  intros (r & -> & Hr)%list_elem_of_fmap.
  apply list_elem_of_In, filter_In in Hr as [Hr _].
  apply list_elem_of_fmap. exists r. split; [done|]. apply list_elem_of_In. done.
Qed.

Lemma filter_fst_NoDup {A} (f : Z * A -> bool) (l : list (Z * A)) :
  NoDup l.*1 -> NoDup (List.filter f l).*1.
Proof.
  induction l as [|a l IH]; simpl; [done|].
  intros [Ha Hl]%NoDup_cons. destruct (f a); simpl; [|auto].
  apply NoDup_cons. split; [|auto].
  intros Hin. apply Ha. eapply filter_fst_elem. exact Hin.
Qed.

Lemma due_subscriptions_elem db today sid :
  sid ∈ (due_subscriptions db today).*1
  <-> exists sub, subscriptions db !! sid = Some sub /\ is_due today sub = true.
Proof.
  unfold due_subscriptions. split.
  - intros ([k sub] & -> & Hr)%list_elem_of_fmap.
    apply list_elem_of_In, filter_In in Hr as [Hr Hd].
    apply list_elem_of_In, elem_of_map_to_list in Hr. exists sub. done.
  - intros (sub & Hs & Hd). apply list_elem_of_fmap. exists (sid, sub). split; [done|].
    apply list_elem_of_In, filter_In. split; [|done].
    apply list_elem_of_In, elem_of_map_to_list. done.
Qed.

(** The effect of the billing sweep, row by row. *)
Lemma process_billing_cycle_rows w :
  exists w',
    process_billing_cycle w = (inr tt, w')
    /\ subscription_plans (session w') = subscription_plans (session w)
    /\ products (session w') = products (session w)
    /\ pre_orders (session w') = pre_orders (session w)
    /\ gateway w' = gateway w
    /\ clock w' = clock w
    /\ (forall sid,
          subscriptions (session w') !! sid
          = (fun sub => if is_due (DateTime.date (clock w)) sub
                        then row_after_renewal w sub else sub)
              <$> subscriptions (session w) !! sid)
    /\ ((session w' = session w /\ committed w' = committed w)
        \/ committed w' = session w').
Proof.
  rewrite process_billing_cycle_unfold.
  destruct (sweep_rows w (due_subscriptions (session w) (DateTime.date (clock w))))
    with (w := w) as (w' & Hrun & Hpl & Hpr & Hpo & Hgw & Hck & Hrows & Hc); [|done|done|].
  { apply filter_fst_NoDup, NoDup_fst_map_to_list. }
  exists w'. repeat split; try done.
  intros sid. rewrite Hrows.
  destruct (subscriptions (session w) !! sid) as [sub|] eqn:Hs; simpl.
  - destruct (is_due (DateTime.date (clock w)) sub) eqn:Hd.
    + rewrite bool_decide_eq_true_2; [done|]. apply due_subscriptions_elem. eauto.
    + rewrite bool_decide_eq_false_2; [done|].
      intros (sub' & Hs' & Hd')%due_subscriptions_elem. congruence.
  - case_bool_decide; done.
Qed.

Lemma timedelta_period_pos f : 0 < DateTime.timedelta_days (period_days f).
Proof. destruct f; reflexivity. Qed.

(** C3.  A renewal whose charge succeeds moves [next_billing_date] from [d]
    to [d] plus 30 days for a monthly plan (90 for a quarterly, 365 for an
    annual one), sets [end_date] to the new [next_billing_date], resets
    [current_month_preorders] to 0 and [current_preorder_value] to 0.0 and
    commits; this holds of [_process_subscription_renewal] and, for a due
    subscription, of the whole billing sweep. *)
Theorem renewal_advances_and_resets w sid sub plan d :
  subscriptions (session w) !! sid = Some sub ->
  subscription_plan (session w) sub = Some plan ->
  Subscription.next_billing_date sub = Some d ->
  charge_subscription (gateway w) (renewal_charge sub plan) = None ->
  let d' :=
    d + DateTime.timedelta_days
          match SubscriptionPlan.billing_frequency plan with
          | MONTHLY => 30
          | QUARTERLY => 90
          | ANNUALLY => 365
          end in
  (exists w1 sub',
     _process_subscription_renewal sid w = (inr tt, w1)
     /\ subscriptions (session w1) !! sid = Some sub'
     /\ committed w1 = session w1
     /\ Subscription.next_billing_date sub' = Some d'
     /\ Subscription.end_date sub' = Subscription.next_billing_date sub'
     /\ Subscription.current_month_preorders sub' = 0
     /\ Subscription.current_preorder_value sub' = 0%float)
  /\ (is_due (DateTime.date (clock w)) sub = true ->
      exists w' sub',
        process_billing_cycle w = (inr tt, w')
        /\ subscriptions (session w') !! sid = Some sub'
        /\ committed w' = session w'
        /\ Subscription.next_billing_date sub' = Some d'
        /\ Subscription.end_date sub' = Subscription.next_billing_date sub'
        /\ Subscription.current_month_preorders sub' = 0
        /\ Subscription.current_preorder_value sub' = 0%float).
Proof.
  intros Hs Hpl Hd Hch d'.
  assert (Hres : renewal_result w sub = inr (renewed sub d')).
  { unfold renewal_result. rewrite Hpl, Hch, Hd. unfold d', period_days.
    destruct (SubscriptionPlan.billing_frequency plan); reflexivity. }
  split.
  - exists (world_after_renewal w sid (renewed sub d')), (renewed sub d').
    rewrite renewal_cases, Hs, Hres. repeat split.
    simpl. apply lookup_insert_eq.
  - intros Hdue.
    destruct (process_billing_cycle_rows w) as (w' & Hrun & _ & _ & _ & _ & _ & Hrows & Hc).
    exists w', (renewed sub d').
    assert (Hrow : subscriptions (session w') !! sid = Some (renewed sub d')).
    { rewrite Hrows, Hs. simpl. rewrite Hdue. unfold row_after_renewal. rewrite Hres. done. }
    repeat split; try done.
    destruct Hc as [[Hsame _]|Hc]; [|done].
    exfalso. rewrite Hsame, Hs in Hrow. injection Hrow as Hrow.
    apply (f_equal Subscription.next_billing_date) in Hrow. simpl in Hrow.
    rewrite Hd in Hrow. injection Hrow as Hrow.
    pose proof (timedelta_period_pos (SubscriptionPlan.billing_frequency plan)) as Hpos.
    unfold d', period_days in *. lia.
Qed.

(** C4.  The billing sweep never raises.  A due subscription whose renewal
    fails keeps its row ([next_billing_date], [end_date] and both counters
    with it); a due subscription whose renewal succeeds ends with the row
    that renewing it alone produces, whatever happened to the others; a
    subscription that is not due keeps its row; and a sweep started from a
    clean session leaves everything committed. *)
Theorem billing_sweep_isolates_failures w :
  exists w',
    process_billing_cycle w = (inr tt, w')
    /\ (session w = committed w -> committed w' = session w')
    /\ forall sid sub,
         subscriptions (session w) !! sid = Some sub ->
         (is_due (DateTime.date (clock w)) sub = true ->
            (forall e w1,
               _process_subscription_renewal sid w = (inl e, w1) ->
               subscriptions (session w') !! sid = Some sub)
            /\ (forall w1,
               _process_subscription_renewal sid w = (inr tt, w1) ->
               subscriptions (session w') !! sid = subscriptions (session w1) !! sid))
         /\ (is_due (DateTime.date (clock w)) sub = false ->
             subscriptions (session w') !! sid = Some sub).
Proof.
  destruct (process_billing_cycle_rows w) as (w' & Hrun & _ & _ & _ & _ & _ & Hrows & Hc).
  exists w'. split; [done|]. split.
  { intros Hclean. destruct Hc as [[Hs Hcm]|Hcm]; congruence. }
  intros sid sub Hs. split.
  - intros Hdue. specialize (Hrows sid). rewrite Hs in Hrows. simpl in Hrows.
    rewrite Hdue in Hrows. unfold row_after_renewal in Hrows.
    split.
    + intros e w1. rewrite renewal_cases, Hs.
      destruct (renewal_result w sub); [|done]. done.
    + intros w1. rewrite renewal_cases, Hs.
      destruct (renewal_result w sub) as [e|sub']; [done|].
      intros [= <-]. simpl. rewrite lookup_insert_eq. done.
  - intros Hnd. rewrite Hrows, Hs. simpl. rewrite Hnd. done.
Qed.

Lemma foldr_max_ge (l : list Z) k : k ∈ l -> k <= foldr Z.max 0 l.
Proof.
  induction l as [|a l IH].
  - intros H. apply elem_of_nil in H. done.
  - intros [->|H]%elem_of_cons; cbn [foldr].
    + apply Z.le_max_l.
    + etrans; [apply IH, H | apply Z.le_max_r].
Qed.

Lemma fresh_id_fresh {A} (m : gmap Z A) : m !! fresh_id m = None.
Proof.
  destruct (m !! fresh_id m) as [x|] eqn:Hx; [|done]. exfalso.
  apply elem_of_map_to_list in Hx.
  assert (Hin : fresh_id m ∈ (map_to_list m).*1).
  { apply list_elem_of_fmap. exists (fresh_id m, x). done. }
  apply foldr_max_ge in Hin. unfold fresh_id in Hin.
  revert Hin. generalize (foldr Z.max 0 (map_to_list m).*1). intros z Hz. lia.
Qed.

Lemma cancel_pre_order_run w id o p sub :
  pre_orders (session w) !! id = Some o ->
  cancellable o ->
  products (session w) !! PreOrder.product_id o = Some p ->
  subscriptions (session w) !! PreOrder.subscription_id o = Some sub ->
  cancel_pre_order id w =
    let db1 := db_after_cancel (session w) id o p sub in
    let sent := send_pre_order_cancelled (PreOrder.customer_id o) id :: outbox w in
    if String.eqb (PreOrder.payment_status o) "charged" then
      match refund_payment (gateway w)
              (mkRefund (PreOrder.payment_intent_id o) (PreOrder.total_amount o)) with
      | Some e => (inl e, mkWorld db1 (committed w) (clock w) (gateway w) (outbox w))
      | None =>
          let db2 :=
            put_pre_order id
              (PreOrder.set_payment_status "refunded" (PreOrder.set_status CANCELLED o))
              db1 in
          (inr tt, mkWorld db2 db2 (clock w) (gateway w) sent)
      end
    else (inr tt, mkWorld db1 db1 (clock w) (gateway w) sent).
Proof.
  intros Ho Hc Hp Hs. unfold cancel_pre_order. mstep. mstep. rewrite Ho. simpl.
  mstep. rewrite bool_decide_eq_false_2 by (destruct Hc as [-> | ->]; done). simpl.
  mstep. rewrite !bool_decide_eq_false_2 by (destruct Hc as [-> | ->]; done). simpl.
  mstep. mstep. rewrite Hp. simpl. mstep. mstep. rewrite Hs. simpl. mstep. mstep.
  destruct (String.eqb (PreOrder.payment_status o) "charged"); simpl.
  - mstep. unfold refund at 1. simpl.
    destruct (refund_payment (gateway w) _) as [e|]; simpl; reflexivity.
  - reflexivity.
Qed.

(** C6, amended.  After a successful [create_pre_order], cancelling the
    created pre-order succeeds and commits; it restores the product row
    ([current_pre_orders] with it) and [current_month_preorders] exactly, and
    leaves [current_preorder_value] at [(v + total_amount) - total_amount]
    computed in binary64 arithmetic, [v] being the value before creation. *)
Theorem create_then_cancel w sid pid q var prio id o w1 :
  create_pre_order sid pid q var prio w = (inr (id, o), w1) ->
  exists w2 sub p,
    cancel_pre_order id w1 = (inr tt, w2)
    /\ committed w2 = session w2
    /\ subscriptions (session w) !! sid = Some sub
    /\ products (session w) !! pid = Some p
    /\ products (session w2) !! pid = Some p
    /\ subscriptions (session w2) !! sid
       = Some (Subscription.set_current_preorder_value
                 ((Subscription.current_preorder_value sub + PreOrder.total_amount o)
                  - PreOrder.total_amount o)%float sub)
    /\ PreOrder.status <$> pre_orders (session w2) !! id = Some CANCELLED.
Proof.
  intros H. apply create_pre_order_inv in H
    as (sub & p & plan & qf & Ha & Hp & _ & _ & _ & _ & Hpl & Hq & _ & Hid & Ho & ->).
  apply active_subscription_Some in Ha as [Ha _].
  apply eligible_product_Some in Hp as [Hp _].
  set (p' := Product.set_current_pre_orders (Product.current_pre_orders p + q) p).
  set (sub' := Subscription.set_current_preorder_value
       (Subscription.current_preorder_value sub + PreOrder.total_amount o)%float
       (Subscription.set_current_month_preorders
          (Subscription.current_month_preorders sub + 1) sub)).
  assert (Hpid : PreOrder.product_id o = pid) by (rewrite Ho; done).
  assert (Hsid : PreOrder.subscription_id o = sid) by (rewrite Ho; done).
  assert (Hq' : PreOrder.quantity o = q) by (rewrite Ho; done).
  assert (Hpay : PreOrder.payment_status o = "pending") by (rewrite Ho; done).
  assert (Hst : cancellable o) by (left; rewrite Ho; done).
  pose proof (cancel_pre_order_run (world_after_create w sid pid q sub p id o) id o p' sub')
    as Hrun.
  rewrite Hpay in Hrun. simpl in Hrun.
  eexists _, sub, p. split.
  { apply Hrun; try done.
    - apply lookup_insert_eq.
    - rewrite Hpid. apply lookup_insert_eq.
    - rewrite Hsid. apply lookup_insert_eq. }
  simpl. rewrite Hpid, Hsid, Hq'. repeat split; try done.
  - rewrite lookup_insert_eq. f_equal. unfold p', Product.set_current_pre_orders.
    destruct p. simpl. f_equal. lia.
  - rewrite lookup_insert_eq. f_equal.
    unfold sub', Subscription.set_current_preorder_value,
      Subscription.set_current_month_preorders.
    destruct sub. simpl. f_equal. lia.
  - rewrite lookup_insert_eq. done.
Qed.

(** C7, amended.  Cancelling a pending or confirmed pre-order whose
    [payment_status] is [charged] invokes the refund.  When the refund
    returns, the cancellation commits with [payment_status = refunded].  When
    the refund raises, the exception reaches the caller before the commit:
    the store is unchanged, and the status change and the three decrements
    stay uncommitted in the session, with [payment_status] still [charged]. *)
Theorem cancel_charged_pre_order w id o p sub :
  pre_orders (session w) !! id = Some o ->
  cancellable o ->
  PreOrder.payment_status o = "charged" ->
  products (session w) !! PreOrder.product_id o = Some p ->
  subscriptions (session w) !! PreOrder.subscription_id o = Some sub ->
  let req := mkRefund (PreOrder.payment_intent_id o) (PreOrder.total_amount o) in
  let db1 := db_after_cancel (session w) id o p sub in
  (refund_payment (gateway w) req = None ->
     exists w',
       cancel_pre_order id w = (inr tt, w')
       /\ committed w' = session w'
       /\ session w'
          = put_pre_order id
              (PreOrder.set_payment_status "refunded" (PreOrder.set_status CANCELLED o))
              db1)
  /\ (forall e,
        refund_payment (gateway w) req = Some e ->
        exists w',
          cancel_pre_order id w = (inl e, w')
          /\ committed w' = committed w
          /\ session w' = db1).
Proof.
  intros Ho Hc Hpay Hp Hs req db1.
  pose proof (cancel_pre_order_run w id o p sub Ho Hc Hp Hs) as Hrun.
  rewrite Hpay in Hrun. simpl in Hrun. fold req db1 in Hrun.
  split.
  - intros Hr. rewrite Hr in Hrun. eexists. split; [exact Hrun|]. done.
  - intros e Hr. rewrite Hr in Hrun. eexists. split; [exact Hrun|]. done.
Qed.

(** C1 at a subscription with limit 2 and two pre-orders this month. *)
Lemma create_pre_order_count_quota_witness :
  create_pre_order 1 3 1 None 1 ex_world_full = (inl QuotaExceeded_count, ex_world_full).
Proof.
  destruct (create_pre_order_count_quota ex_world_full 1 3 1 None 1
              (Subscription.set_current_preorder_value (0.1 + 0.2)%float
                 (Subscription.set_current_month_preorders 2 (ex_subscription 7 "pm_1")))
              ltac:(vm_compute; reflexivity) ltac:(vm_compute; reflexivity)
              ltac:(vm_compute; discriminate))
    as [_ Hquota].
  apply (Hquota (ex_product 60%float None)); vm_compute; reflexivity.
Defined.

(** C2 with 60 used and a limit of 100: an order of 60 is rejected, an order
    of 40, which reaches the limit exactly, is accepted. *)
Lemma create_pre_order_value_quota_witness :
  create_pre_order 1 3 1 None 1 ex_world_sixty = (inl QuotaExceeded_value, ex_world_sixty)
  /\ exists r w', create_pre_order 1 5 1 None 1 ex_world_sixty = (inr r, w').
Proof.
  split.
  - destruct (create_pre_order_value_quota ex_world_sixty 1 3 1 None 1
                (Subscription.set_current_preorder_value 60%float
                   (Subscription.set_current_month_preorders 1 (ex_subscription 7 "pm_1")))
                (Product.set_current_pre_orders 1 (ex_product 60%float None)) ex_plan 1%float
                ltac:(vm_compute; reflexivity) ltac:(vm_compute; reflexivity)
                ltac:(vm_compute; reflexivity) ltac:(vm_compute; reflexivity)
                ltac:(vm_compute; reflexivity) ltac:(vm_compute; reflexivity)
                ltac:(vm_compute; reflexivity))
      as [_ Hvalue].
    destruct Hvalue as [Hpos _].
    + intros [_ Hreached]. vm_compute in Hreached. apply Hreached. reflexivity.
    + destruct (Hpos ltac:(vm_compute; reflexivity)) as (Hiff & _ & _).
      apply Hiff. vm_compute. reflexivity.
  - destruct (create_pre_order_value_quota ex_world_sixty 1 5 1 None 1
                (Subscription.set_current_preorder_value 60%float
                   (Subscription.set_current_month_preorders 1 (ex_subscription 7 "pm_1")))
                (ex_product 40%float None) ex_plan 1%float
                ltac:(vm_compute; reflexivity) ltac:(vm_compute; reflexivity)
                ltac:(vm_compute; reflexivity) ltac:(vm_compute; reflexivity)
                ltac:(vm_compute; reflexivity) ltac:(vm_compute; reflexivity)
                ltac:(vm_compute; reflexivity))
      as [_ Hvalue].
    destruct Hvalue as [Hpos _].
    + intros [_ Hreached]. vm_compute in Hreached. apply Hreached. reflexivity.
    + destruct (Hpos ltac:(vm_compute; reflexivity)) as (_ & _ & Hequal).
      apply Hequal. vm_compute. reflexivity.
Defined.

(** C3 on the monthly subscription 1 of the example world. *)
Lemma renewal_advances_and_resets_witness :
  exists w' sub',
    process_billing_cycle ex_world = (inr tt, w')
    /\ subscriptions (session w') !! 1 = Some sub'
    /\ committed w' = session w'
    /\ Subscription.next_billing_date sub'
       = Some (ex_now + DateTime.timedelta_days 30)
    /\ Subscription.end_date sub' = Subscription.next_billing_date sub'
    /\ Subscription.current_month_preorders sub' = 0
    /\ Subscription.current_preorder_value sub' = 0%float.
Proof.
  eapply (proj2 (renewal_advances_and_resets ex_world 1 _ ex_plan ex_now
                   ltac:(vm_compute; reflexivity) ltac:(vm_compute; reflexivity)
                   ltac:(vm_compute; reflexivity) ltac:(vm_compute; reflexivity))).
  vm_compute; reflexivity.
Defined.

(** C6, amended, on the pre-order of 60. *)
Lemma create_then_cancel_witness :
  exists w2,
    cancel_pre_order 1 ex_world_sixty = (inr tt, w2)
    /\ counters (session w2) 1 = Some (0, ((0 + 60) - 60)%float).
Proof.
  destruct (create_then_cancel ex_world 1 3 1 None 1 1
              (created_pre_order ex_now 1 3 1 None 1 (ex_subscription 7 "pm_1")
                 (ex_product 60%float None) ex_plan 1%float)
              ex_world_sixty ltac:(vm_compute; reflexivity))
    as (w2 & sub & p & Hrun & _ & Hs & _ & _ & Hrow & _).
  exists w2. split; [exact Hrun|].
  unfold counters. rewrite Hrow. vm_compute in Hs. injection Hs as <-.
  vm_compute. reflexivity.
Defined.

(** C7, amended, with a gateway that refuses the refund. *)
Lemma cancel_charged_pre_order_witness :
  exists w',
    cancel_pre_order 1 ex_world_charged = (inl (GatewayError "refund failed"), w')
    /\ committed w' = committed ex_world_charged
    /\ PreOrder.status <$> pre_orders (session w') !! 1 = Some CANCELLED.
Proof.
  destruct (cancel_charged_pre_order ex_world_charged 1 ex_charged_order
              (Product.set_current_pre_orders 1 (ex_product 60%float None))
              (Subscription.set_current_preorder_value 60%float
                 (Subscription.set_current_month_preorders 1 (ex_subscription 7 "pm_1")))
              ltac:(vm_compute; reflexivity) ltac:(left; reflexivity)
              ltac:(reflexivity) ltac:(vm_compute; reflexivity)
              ltac:(vm_compute; reflexivity))
    as [_ Hfail].
  destruct (Hfail (GatewayError "refund failed") ltac:(reflexivity))
    as (w' & Hrun & Hcommitted & Hsession).
  exists w'. split; [exact Hrun|]. split; [exact Hcommitted|].
  rewrite Hsession. vm_compute. reflexivity.
Defined.

(** C8 on a pre-order that was cancelled before. *)
Lemma cancel_pre_order_invalid_state_witness :
  cancel_pre_order 1 (after (cancel_pre_order 1) ex_world_sixty)
  = (inl InvalidState_already_cancelled, after (cancel_pre_order 1) ex_world_sixty).
Proof.
  eapply (proj2 (cancel_pre_order_invalid_state
                   (after (cancel_pre_order 1) ex_world_sixty) 1 _
                   ltac:(vm_compute; reflexivity))).
  vm_compute. reflexivity.
Defined.

(** C9, amended, on the pre-order of 60. *)
Lemma create_pre_order_pricing_witness :
  exists o,
    pre_orders (session ex_world_sixty) !! 1 = Some o
    /\ PreOrder.total_amount o = ((60 - 60 * (0 / 100)) * 1)%float.
Proof.
  destruct (create_pre_order_pricing ex_world 1 3 1 None 1 1
              (created_pre_order ex_now 1 3 1 None 1 (ex_subscription 7 "pm_1")
                 (ex_product 60%float None) ex_plan 1%float)
              ex_world_sixty ltac:(vm_compute; reflexivity))
    as (sub & p & plan & qf & _ & _ & _ & _ & Ho & _ & _ & _ & _).
  eexists. split; [exact Ho|]. vm_compute. reflexivity.
Defined.

(** C10 on a full subscription and the same one with counters -5 and 99999. *)
Lemma quota_decision_ignores_counters_witness :
  outcome (create_pre_order 1 3 1 None 1 ex_world_full)
  = outcome (create_pre_order 1 3 1 None 1 ex_world_skewed).
Proof.
  apply quota_decision_ignores_counters.
  repeat split; vm_compute; reflexivity.
Defined.

(** C6 as stated fails: with 0.1 on the counter, creating and cancelling a
    pre-order of 0.2 leaves 0.10000000000000003. *)
Lemma create_then_cancel_not_identity :
  let w := ex_world_tenth in
  let w1 := after (create_pre_order 1 2 1 None 1) w in
  let w2 := after (cancel_pre_order 2) w1 in
  returned (create_pre_order 1 2 1 None 1) w
    = Some (2, created_pre_order ex_now 1 2 1 None 1
                 (Subscription.set_current_preorder_value 0.1%float
                    (Subscription.set_current_month_preorders 1 (ex_subscription 7 "pm_1")))
                 (ex_product 0.2%float None) ex_plan 1%float)
  /\ returned (cancel_pre_order 2) w1 = Some tt
  /\ (Subscription.current_preorder_value <$> subscriptions (session w) !! 1)
     <> (Subscription.current_preorder_value <$> subscriptions (session w2) !! 1).
Proof.
  repeat split; try (vm_compute; reflexivity).
  vm_compute. intros H. discriminate H.
Qed.

(** C7 as stated fails: when the refund raises, the store still has the
    pre-order pending and the counters as they were. *)
Lemma refund_failure_commits_nothing :
  let w' := after (cancel_pre_order 1) ex_world_charged in
  PreOrder.payment_status <$> pre_orders (session ex_world_charged) !! 1 = Some "charged"
  /\ (cancel_pre_order 1 ex_world_charged).1 = inl (GatewayError "refund failed")
  /\ PreOrder.status <$> pre_orders (committed w') !! 1 = Some PENDING
  /\ counters (committed w') 1 = Some (1, 60%float)
  /\ Product.current_pre_orders <$> products (committed w') !! 3 = Some 1.
Proof. repeat split; vm_compute; reflexivity. Qed.

(** C2 as stated fails: with the count quota exhausted, an order that takes
    the month's value over a positive limit is rejected for the count, not for
    the value. *)
Lemma value_quota_hidden_by_count_quota :
  let w := ex_world_full in
  let used := current_month_value (session w) 1 (clock w) in
  let total := order_total (ex_product 60%float None) ex_plan 2%float in
  (Subscription.total_preorder_value_limit <$> subscriptions (session w) !! 1)
  = Some 100%float
  /\ used = (0.1 + 0.2)%float
  /\ total = 120%float
  /\ (100 <? used + total)%float = true
  /\ create_pre_order 1 3 2 None 1 w = (inl QuotaExceeded_count, w)
  /\ QuotaExceeded_count <> QuotaExceeded_value.
Proof.
  repeat split; try (vm_compute; reflexivity).
  discriminate.
Qed.

(** C9 as stated fails: a product whose [pre_order_price] is set to 0.0 is
    priced at its [base_price]. *)
Lemma zero_pre_order_price_is_ignored :
  (Product.pre_order_price <$> products (session ex_world) !! 4) = Some (Some 0%float)
  /\ (Product.base_price <$> products (session ex_world) !! 4) = Some 10%float
  /\ (PreOrder.unit_price <$> (snd <$> returned (create_pre_order 1 4 1 None 1) ex_world))
     = Some 10%float
  /\ (PreOrder.total_amount <$> (snd <$> returned (create_pre_order 1 4 1 None 1) ex_world))
     <> Some ((0 - 0 * (0 / 100)) * 1)%float.
Proof.
  repeat split; try (vm_compute; reflexivity).
  vm_compute. intros H. discriminate H.
Qed.

(** C5, failing input.  One pre-order of 60.0 is created, the billing sweep
    renews the subscription and resets its counters, and the still pending
    pre-order is cancelled: every call succeeds and the committed counters
    are -1 and -60.0. *)
Theorem counters_negative_after_renewal_and_cancel :
  let run :=
    create_pre_order 1 3 1 None 1 ;; process_billing_cycle ;; cancel_pre_order 1 in
  (run ex_world).1 = inr tt
  /\ counters (session ex_world) 1 = Some (0, 0%float)
  /\ counters (committed (after run ex_world)) 1 = Some (-1, (-60)%float)
  /\ ((-60) <? 0)%float = true.
Proof. repeat split; vm_compute; reflexivity. Qed.

(** ** The scenarios of the specification, run on the model *)

(** The start of the month of 2024-03-15T12:00:00 is 2024-03-01T00:00:00, and
    of a leap day 2024-02-01T00:00:00. *)
Example month_start_examples :
  DateTime.month_start ex_now = DateTime.make 2024 3 1 0 0 0
  /\ DateTime.month_start (DateTime.make 2024 2 29 23 59 59) = DateTime.make 2024 2 1 0 0 0
  /\ DateTime.ord2ymd (DateTime.toordinal ex_now) = (2024, 3, 15).
Proof. repeat split; vm_compute; reflexivity. Qed.

(** Limit 2: two pre-orders succeed, a third is rejected for the count, and
    after one of the two is cancelled a new one succeeds. *)
Example count_quota_scenario :
  let third := create_pre_order 1 3 1 None 1 in
  (third ex_world_full).1 = inl QuotaExceeded_count
  /\ current_month_orders (session ex_world_full) 1 ex_now = 2
  /\ current_month_orders (session (after (cancel_pre_order 2) ex_world_full)) 1 ex_now = 1
  /\ outcome ((cancel_pre_order 2 ;; third) ex_world_full) = None.
Proof. repeat split; vm_compute; reflexivity. Qed.

(** Value limit 100, price 60, no discount: the first pre-order succeeds and
    the second, which would bring the month to 120, is rejected. *)
Example value_quota_scenario :
  outcome (create_pre_order 1 3 1 None 1 ex_world) = None
  /\ current_month_value (session ex_world_sixty) 1 ex_now = 60%float
  /\ (create_pre_order 1 3 1 None 1 ex_world_sixty).1 = inl QuotaExceeded_value.
Proof. repeat split; vm_compute; reflexivity. Qed.

(** One sweep over two due subscriptions: the charge of subscription 2 is
    declined and its row stays; subscription 1 is renewed by 30 days. *)
Example billing_sweep_scenario :
  let w := after process_billing_cycle ex_world in
  (process_billing_cycle ex_world).1 = inr tt
  /\ subscriptions (session w) !! 2 = subscriptions (session ex_world) !! 2
  /\ subscriptions (committed w) !! 1
     = Some (renewed (ex_subscription 7 "pm_1") (ex_now + DateTime.timedelta_days 30))
  /\ outbox w = [send_billing_success 7 1 29.99%float;
                 send_billing_failed 8 2 (GatewayError "card declined")].
Proof. repeat split; vm_compute; reflexivity. Qed.

(** * Further properties of the service *)

(** [create_pre_order], check by check. *)
Lemma create_pre_order_cases w sid pid q var prio :
  create_pre_order sid pid q var prio w =
    match active_subscription (session w) sid with
    | None => (inl (ValueError "Active subscription not found"), w)
    | Some sub =>
        match eligible_product (session w) pid with
        | None => (inl (ValueError "Product not found or not eligible for pre-order"), w)
        | Some p =>
            if not_started (clock w) p
            then (inl (ValueError "Pre-order period has not started yet"), w)
            else if ended (clock w) p
            then (inl (ValueError "Pre-order period has ended"), w)
            else if over_capacity p q
            then (inl (ValueError "Pre-order quantity exceeds available limit"), w)
            else
              match _validate_subscription_limits sid sub p q w with
              | (inl e, _) => (inl e, w)
              | (inr _, _) =>
                  match subscription_plan (session w) sub, Py.float_of_int q with
                  | Some plan, Some qf =>
                      let o := created_pre_order (clock w) sid pid q var prio sub p plan qf in
                      let id := fresh_id (pre_orders (session w)) in
                      (inr (id, o), world_after_create w sid pid q sub p id o)
                  | None, _ =>
                      (inl (AttributeError
                              "'NoneType' object has no attribute 'discount_percentage'"), w)
                  | Some _, None =>
                      (inl (OverflowError "int too large to convert to float"), w)
                  end
              end
        end
    end.
Proof.
  destruct (active_subscription (session w) sid) as [sub|] eqn:Ha;
    [|unfold create_pre_order; mstep; mstep; rewrite Ha; done].
  destruct (eligible_product (session w) pid) as [p|] eqn:Hp;
    [|unfold create_pre_order; mstep; mstep; rewrite Ha; simpl; mstep;
      rewrite Hp; done].
  destruct (not_started (clock w) p) eqn:Hns;
    [unfold create_pre_order; mstep; mstep; rewrite Ha; simpl; mstep;
      rewrite Hp; simpl; mstep; mstep; rewrite Hns; done|].
  destruct (ended (clock w) p) eqn:He;
    [unfold create_pre_order; mstep; mstep; rewrite Ha; simpl; mstep;
      rewrite Hp; simpl; mstep; mstep; rewrite Hns; simpl; mstep; rewrite He; done|].
  destruct (over_capacity p q) eqn:Hcap;
    [unfold create_pre_order; mstep; mstep; rewrite Ha; simpl; mstep;
      rewrite Hp; simpl; mstep; mstep; rewrite Hns; simpl; mstep; rewrite He; simpl;
      mstep; rewrite Hcap; done|].
  apply create_pre_order_run; done.
Qed.

(** X1.  A rejected [create_pre_order] changes nothing. *)
Theorem create_pre_order_rejection_unchanged w sid pid q var prio e w' :
  create_pre_order sid pid q var prio w = (inl e, w') -> w' = w.
Proof.
  rewrite create_pre_order_cases.
  destruct (active_subscription (session w) sid) as [sub|]; [|congruence].
  destruct (eligible_product (session w) pid) as [p|]; [|congruence].
  destruct (not_started (clock w) p); [congruence|].
  destruct (ended (clock w) p); [congruence|].
  destruct (over_capacity p q); [congruence|].
  destruct (_validate_subscription_limits sid sub p q w) as [[e'|[]] w'']; [congruence|].
  destruct (subscription_plan (session w) sub); [|congruence].
  destruct (Py.float_of_int q); congruence.
Qed.

(** X2.  A created pre-order takes a key no stored pre-order has, and every
    stored pre-order is kept as it is. *)
Theorem create_pre_order_keeps_pre_orders w sid pid q var prio id o w1 :
  create_pre_order sid pid q var prio w = (inr (id, o), w1) ->
  pre_orders (session w) !! id = None
  /\ pre_orders (session w1) !! id = Some o
  /\ (forall k, k <> id -> pre_orders (session w1) !! k = pre_orders (session w) !! k)
  /\ PreOrder.status o = PENDING
  /\ PreOrder.payment_status o = "pending"
  /\ PreOrder.created_at o = clock w
  /\ committed w1 = session w1.
Proof.
  intros H. apply create_pre_order_inv in H
    as (sub & p & plan & qf & _ & _ & _ & _ & _ & _ & _ & _ & _ & -> & -> & ->).
  repeat split.
  - apply fresh_id_fresh.
  - simpl. apply lookup_insert_eq.
  - intros k Hk. simpl. apply lookup_insert_ne. done.
Qed.

(** X3.  What a successful [create_pre_order] does to the counters. *)
Theorem create_pre_order_counters w sid pid q var prio id o w1 :
  create_pre_order sid pid q var prio w = (inr (id, o), w1) ->
  exists sub p,
    subscriptions (session w) !! sid = Some sub
    /\ products (session w) !! pid = Some p
    /\ subscriptions (session w1) !! sid
       = Some (Subscription.set_current_preorder_value
                 (Subscription.current_preorder_value sub + PreOrder.total_amount o)%float
                 (Subscription.set_current_month_preorders
                    (Subscription.current_month_preorders sub + 1) sub))
    /\ products (session w1) !! pid
       = Some (Product.set_current_pre_orders (Product.current_pre_orders p + q) p)
    /\ (forall k, k <> sid ->
          subscriptions (session w1) !! k = subscriptions (session w) !! k)
    /\ (forall k, k <> pid -> products (session w1) !! k = products (session w) !! k)
    /\ subscription_plans (session w1) = subscription_plans (session w)
    /\ outbox w1
       = send_pre_order_confirmation (Subscription.customer_id sub) id :: outbox w.
Proof.
  intros H. apply create_pre_order_inv in H
    as (sub & p & plan & qf & Ha & Hp & _ & _ & _ & _ & _ & _ & _ & -> & -> & ->).
  apply active_subscription_Some in Ha as [Ha _].
  apply eligible_product_Some in Hp as [Hp _].
  exists sub, p. repeat split; try done.
  - simpl. apply lookup_insert_eq.
  - simpl. apply lookup_insert_eq.
  - intros k Hk. simpl. apply lookup_insert_ne. done.
  - intros k Hk. simpl. apply lookup_insert_ne. done.
Qed.

(** X4.  A successful [create_pre_order] never takes a product above a limit
    that is set and not zero. *)
Theorem create_pre_order_within_capacity w sid pid q var prio id o w1 limit :
  create_pre_order sid pid q var prio w = (inr (id, o), w1) ->
  Product.pre_order_limit <$> products (session w) !! pid = Some (Some limit) ->
  limit <> 0 ->
  exists p',
    products (session w1) !! pid = Some p'
    /\ Product.pre_order_limit p' = Some limit
    /\ Product.current_pre_orders p' <= limit.
Proof.
  intros H Hl Hnz. apply create_pre_order_inv in H
    as (sub & p & plan & qf & _ & Hp & _ & _ & Hcap & _ & _ & _ & _ & -> & -> & ->).
  apply eligible_product_Some in Hp as [Hp _].
  rewrite Hp in Hl. simpl in Hl. injection Hl as Hl.
  eexists. split; [simpl; apply lookup_insert_eq|]. split; [done|].
  simpl. unfold over_capacity in Hcap. rewrite Hl in Hcap.
  apply andb_false_iff in Hcap as [Hz|Hlt].
  - apply negb_false_iff, Z.eqb_eq in Hz. done.
  - apply Z.ltb_ge in Hlt. done.
Qed.

(** Cancelling a pre-order that does not exist. *)
Theorem cancel_pre_order_not_found w id :
  pre_orders (session w) !! id = None ->
  cancel_pre_order id w = (inl (ValueError "Pre-order not found"), w).
Proof. intros H. unfold cancel_pre_order. mstep. mstep. rewrite H. done. Qed.

(** [cancel_pre_order], check by check. *)
Lemma cancel_pre_order_cases w id :
  cancel_pre_order id w =
    match pre_orders (session w) !! id with
    | None => (inl (ValueError "Pre-order not found"), w)
    | Some o =>
        if bool_decide (PreOrder.status o = CANCELLED)
        then (inl InvalidState_already_cancelled, w)
        else if bool_decide (PreOrder.status o = PROCESSING)
                || bool_decide (PreOrder.status o = FULFILLED)
        then (inl InvalidState_not_cancellable, w)
        else
          let dirty db := mkWorld db (committed w) (clock w) (gateway w) (outbox w) in
          let db0 := put_pre_order id (PreOrder.set_status CANCELLED o) (session w) in
          match products (session w) !! PreOrder.product_id o with
          | None =>
              (inl (AttributeError
                      "'NoneType' object has no attribute 'current_pre_orders'"),
               dirty db0)
          | Some p =>
              match subscriptions (session w) !! PreOrder.subscription_id o with
              | None =>
                  (inl (AttributeError
                          "'NoneType' object has no attribute 'current_month_preorders'"),
                   dirty (put_product (PreOrder.product_id o)
                            (Product.set_current_pre_orders
                               (Product.current_pre_orders p - PreOrder.quantity o) p)
                            db0))
              | Some sub =>
                  let db1 := db_after_cancel (session w) id o p sub in
                  let sent :=
                    send_pre_order_cancelled (PreOrder.customer_id o) id :: outbox w in
                  if String.eqb (PreOrder.payment_status o) "charged" then
                    match refund_payment (gateway w)
                            (mkRefund (PreOrder.payment_intent_id o)
                                      (PreOrder.total_amount o)) with
                    | Some e => (inl e, dirty db1)
                    | None =>
                        let db2 :=
                          put_pre_order id
                            (PreOrder.set_payment_status "refunded"
                               (PreOrder.set_status CANCELLED o)) db1 in
                        (inr tt, mkWorld db2 db2 (clock w) (gateway w) sent)
                    end
                  else (inr tt, mkWorld db1 db1 (clock w) (gateway w) sent)
              end
          end
    end.
Proof.
  destruct (pre_orders (session w) !! id) as [o|] eqn:Ho;
    [|unfold cancel_pre_order; mstep; mstep; rewrite Ho; done].
  destruct (bool_decide (PreOrder.status o = CANCELLED)) eqn:Hc;
    [unfold cancel_pre_order; mstep; mstep; rewrite Ho; simpl; mstep; rewrite Hc; done|].
  destruct (bool_decide (PreOrder.status o = PROCESSING)
            || bool_decide (PreOrder.status o = FULFILLED)) eqn:Hpf;
    [unfold cancel_pre_order; mstep; mstep; rewrite Ho; simpl; mstep; rewrite Hc; simpl;
     mstep; rewrite Hpf; done|].
  destruct (products (session w) !! PreOrder.product_id o) as [p|] eqn:Hp;
    [|unfold cancel_pre_order; mstep; mstep; rewrite Ho; simpl; mstep; rewrite Hc; simpl;
      mstep; rewrite Hpf; simpl; mstep; mstep; rewrite Hp; done].
  destruct (subscriptions (session w) !! PreOrder.subscription_id o) as [sub|] eqn:Hs;
    [|unfold cancel_pre_order; mstep; mstep; rewrite Ho; simpl; mstep; rewrite Hc; simpl;
      mstep; rewrite Hpf; simpl; mstep; mstep; rewrite Hp; simpl; mstep; mstep;
      rewrite Hs; done].
  apply cancel_pre_order_run; try done.
  apply bool_decide_eq_false in Hc. apply orb_false_iff in Hpf as [Hp1 Hp2].
  apply bool_decide_eq_false in Hp1, Hp2.
  unfold cancellable. destruct (PreOrder.status o); auto; done.
Qed.

(** X8.  After a successful cancellation the pre-order is cancelled in the
    session, so a second cancellation is rejected and changes nothing. *)
Theorem cancel_pre_order_twice w id w1 :
  cancel_pre_order id w = (inr tt, w1) ->
  PreOrder.status <$> pre_orders (session w1) !! id = Some CANCELLED
  /\ cancel_pre_order id w1 = (inl InvalidState_already_cancelled, w1).
Proof.
  intros H.
  assert (Hst : PreOrder.status <$> pre_orders (session w1) !! id = Some CANCELLED).
  { revert H. rewrite cancel_pre_order_cases.
    destruct (pre_orders (session w) !! id) as [o|]; [|done].
    destruct (bool_decide (PreOrder.status o = CANCELLED)); [done|].
    destruct (_ || _); [done|].
    destruct (products (session w) !! PreOrder.product_id o) as [p|]; [|done].
    destruct (subscriptions (session w) !! PreOrder.subscription_id o) as [s|]; [|done].
    destruct (String.eqb (PreOrder.payment_status o) "charged").
    - destruct (refund_payment (gateway w) _); [done|].
      intros [= <-]. simpl. rewrite lookup_insert_eq. done.
    - intros [= <-]. simpl. rewrite lookup_insert_eq. done. }
  split; [done|].
  rewrite cancel_pre_order_cases.
  destruct (pre_orders (session w1) !! id) as [o1|]; [|done].
  simpl in Hst. injection Hst as Hst.
  rewrite bool_decide_eq_true_2 by done. done.
Qed.

Lemma all_from_spec n f : forall z k,
  all_from n z f = true -> z <= k < z + Z.of_nat n -> f k = true.
Proof.
  induction n as [|n IH]; intros z k H Hk; [lia|].
  simpl in H. apply andb_true_iff in H as [Hz Hrest].
  destruct (decide (k = z)) as [->|Hne]; [done|].
  apply (IH (z + 1)); [done|lia].
Qed.

(** Every day of one 400-year cycle, by computation. *)
Lemma cycle_check : all_from (Z.to_nat 146097) 0 cycle_ok = true.
Proof. vm_compute. reflexivity. Qed.

Lemma is_leap_shift y a : DateTime.is_leap (y + 400 * a) = DateTime.is_leap y.
Proof.
  unfold DateTime.is_leap.
  replace ((y + 400 * a) mod 4) with (y mod 4)
    by (replace (y + 400 * a) with (y + (100 * a) * 4) by lia; rewrite Z.mod_add; lia).
  replace ((y + 400 * a) mod 100) with (y mod 100)
    by (replace (y + 400 * a) with (y + (4 * a) * 100) by lia; rewrite Z.mod_add; lia).
  replace ((y + 400 * a) mod 400) with (y mod 400)
    by (replace (y + 400 * a) with (y + a * 400) by lia; rewrite Z.mod_add; lia).
  reflexivity.
Qed.

Lemma ymd2ord_shift y m d a :
  DateTime.ymd2ord (y + 400 * a) m d = DateTime.ymd2ord y m d + 146097 * a.
Proof.
  unfold DateTime.ymd2ord, DateTime.days_before_month, DateTime.days_before_year.
  rewrite is_leap_shift. cbv zeta.
  replace ((y + 400 * a - 1) / 4) with ((y - 1) / 4 + 100 * a)
    by (replace (y + 400 * a - 1) with (y - 1 + (100 * a) * 4) by lia;
        rewrite Z.div_add; lia).
  replace ((y + 400 * a - 1) / 100) with ((y - 1) / 100 + 4 * a)
    by (replace (y + 400 * a - 1) with (y - 1 + (4 * a) * 100) by lia;
        rewrite Z.div_add; lia).
  replace ((y + 400 * a - 1) / 400) with ((y - 1) / 400 + a)
    by (replace (y + 400 * a - 1) with (y - 1 + a * 400) by lia;
        rewrite Z.div_add; lia).
  lia.
Qed.

Lemma ord2ymd_shift n :
  let a := (n - 1) / 146097 in
  let r := (n - 1) mod 146097 in
  DateTime.ord2ymd n =
    let '(y, m, d) := DateTime.ord2ymd (r + 1) in (y + 400 * a, m, d).
Proof.
  intros a r.
  assert (Hr : 0 <= r < 146097) by (apply Z.mod_pos_bound; lia).
  unfold DateTime.ord2ymd. cbv zeta.
  replace (r + 1 - 1) with r by lia.
  rewrite (Z.div_small r 146097) by lia.
  rewrite (Z.mod_small r 146097) by lia.
  fold a r.
  destruct (_ || _); [f_equal; f_equal; lia|].
  destruct (_ <? _); f_equal; f_equal; lia.
Qed.

(** The round trip ordinal, civil date, ordinal, for every ordinal. *)
Lemma ymd2ord_ord2ymd n :
  let '(y, m, d) := DateTime.ord2ymd n in
  DateTime.ymd2ord y m d = n /\ 1 <= d.
Proof.
  rewrite ord2ymd_shift.
  set (a := (n - 1) / 146097). set (r := (n - 1) mod 146097).
  assert (Hr : 0 <= r < 146097) by (apply Z.mod_pos_bound; lia).
  assert (Hn : n = r + 1 + 146097 * a).
  { pose proof (Z.div_mod (n - 1) 146097 ltac:(lia)) as H. fold a r in H. lia. }
  pose proof (all_from_spec _ _ 0 r cycle_check ltac:(lia)) as Hc.
  unfold cycle_ok in Hc.
  destruct (DateTime.ord2ymd (r + 1)) as [[y m] d].
  apply andb_true_iff in Hc as [He Hd].
  apply Z.eqb_eq in He. apply Z.leb_le in Hd.
  rewrite ymd2ord_shift. lia.
Qed.

(** The start of the month is not after the moment itself. *)
Lemma month_start_le dt : DateTime.month_start dt <= dt.
Proof.
  unfold DateTime.month_start.
  pose proof (ymd2ord_ord2ymd (DateTime.toordinal dt)) as H.
  destruct (DateTime.ord2ymd (DateTime.toordinal dt)) as [[y m] d].
  destruct H as [Heq Hd].
  assert (Hord : DateTime.ymd2ord y m 1 <= DateTime.toordinal dt).
  { rewrite <- Heq. unfold DateTime.ymd2ord. lia. }
  unfold DateTime.of_ordinal, DateTime.toordinal, DateTime.us_per_day in *.
  pose proof (Z.mul_div_le dt (86400 * 1000000) ltac:(lia)). lia.
Qed.

Lemma filter_Permutation_length {A} (f : A -> bool) (l l' : list A) :
  l ≡ₚ l' -> length (List.filter f l) = length (List.filter f l').
Proof.
  induction 1 as [|x l l' _ IH|x y l|l l' l'' _ IH1 _ IH2]; simpl.
  - done.
  - destruct (f x); simpl; congruence.
  - destruct (f x), (f y); done.
  - congruence.
Qed.

(** Counting the rows of a table that satisfy a condition, one row apart. *)
Lemma count_rows_insert {A} (f : A -> bool) (m : gmap Z A) id x :
  Z.of_nat (length (List.filter f (map_to_list (<[id := x]> m)).*2))
  = (if f x then 1 else 0)
    + Z.of_nat (length (List.filter f (map_to_list (delete id m)).*2)).
Proof.
  rewrite <- insert_delete_eq.
  rewrite (filter_Permutation_length f _ (x :: (map_to_list (delete id m)).*2)).
  - simpl. destruct (f x); simpl; lia.
  - rewrite map_to_list_insert by apply lookup_delete_eq. done.
Qed.

Lemma count_rows_lookup {A} (f : A -> bool) (m : gmap Z A) id x :
  m !! id = Some x ->
  Z.of_nat (length (List.filter f (map_to_list m).*2))
  = (if f x then 1 else 0)
    + Z.of_nat (length (List.filter f (map_to_list (delete id m)).*2)).
Proof.
  intros H. rewrite <- (insert_id m id x H) at 1. apply count_rows_insert.
Qed.

Lemma delete_fresh {A} (m : gmap Z A) id : m !! id = None -> delete id m = m.
Proof. apply delete_id. Qed.

(** X5.  The pre-order [create_pre_order] stores counts towards the month's
    quota of its subscription, and of no other. *)
Theorem create_pre_order_counts w sid pid q var prio id o w1 :
  create_pre_order sid pid q var prio w = (inr (id, o), w1) ->
  current_month_orders (session w1) sid (clock w1)
  = current_month_orders (session w) sid (clock w) + 1
  /\ forall sid', sid' <> sid ->
       current_month_orders (session w1) sid' (clock w1)
       = current_month_orders (session w) sid' (clock w).
Proof.
  intros H. apply create_pre_order_inv in H
    as (sub & p & plan & qf & _ & _ & _ & _ & _ & _ & _ & _ & _ & -> & -> & ->).
  unfold current_month_orders, month_pre_orders. simpl.
  pose proof (fresh_id_fresh (pre_orders (session w))) as Hfresh.
  split.
  - rewrite count_rows_insert, delete_id by done.
    unfold in_month at 1. simpl. rewrite Z.eqb_refl.
    rewrite (proj2 (Z.leb_le _ _) (month_start_le (clock w))). simpl. lia.
  - intros sid' Hne. rewrite count_rows_insert, delete_id by done.
    unfold in_month at 1. simpl.
    rewrite (proj2 (Z.eqb_neq sid sid')) by done. simpl. lia.
Qed.

(** X9.  A cancelled pre-order stops counting towards the month's quota. *)
Theorem cancel_pre_order_uncounts w id o w1 :
  pre_orders (session w) !! id = Some o ->
  cancel_pre_order id w = (inr tt, w1) ->
  forall sid,
    current_month_orders (session w1) sid (clock w1)
    = current_month_orders (session w) sid (clock w)
      - (if (PreOrder.subscription_id o =? sid)
            && (DateTime.month_start (clock w) <=? PreOrder.created_at o)
         then 1 else 0).
Proof.
  intros Ho H sid. revert H. rewrite cancel_pre_order_cases, Ho.
  destruct (bool_decide (PreOrder.status o = CANCELLED)) eqn:Hc; [done|].
  destruct (_ || _); [done|].
  destruct (products (session w) !! PreOrder.product_id o) as [p|]; [|done].
  destruct (subscriptions (session w) !! PreOrder.subscription_id o) as [s|]; [|done].
  assert (Hin : in_month sid (DateTime.month_start (clock w)) o
                = (PreOrder.subscription_id o =? sid)
                  && (DateTime.month_start (clock w) <=? PreOrder.created_at o)).
  { unfold in_month. rewrite Hc. simpl. rewrite andb_true_r. done. }
  unfold current_month_orders, month_pre_orders.
  rewrite (count_rows_lookup _ (pre_orders (session w)) id o Ho), Hin.
  destruct (String.eqb (PreOrder.payment_status o) "charged").
  - destruct (refund_payment (gateway w) _); [done|].
    intros [= <-]. simpl. rewrite insert_insert_eq, count_rows_insert.
    unfold in_month at 1. simpl. rewrite andb_false_r. lia.
  - intros [= <-]. simpl. rewrite count_rows_insert.
    unfold in_month at 1. simpl. rewrite andb_false_r. lia.
Qed.

Lemma create_pre_order_outcome_agree w1 w2 sid pid q var prio :
  same_quota_inputs w1 w2 ->
  outcome (create_pre_order sid pid q var prio w1)
  = outcome (create_pre_order sid pid q var prio w2).
Proof.
  intros (Hclk & Hpo & Hpr & Hpl & Hview). specialize (Hview sid).
  rewrite !create_pre_order_cases. unfold active_subscription, eligible_product.
  rewrite Hpr, Hclk.
  destruct (subscriptions (session w1) !! sid) as [s1|],
           (subscriptions (session w2) !! sid) as [s2|]; simpl in *; try done.
  injection Hview as Hst Hpid Hlim Hval. rewrite Hst.
  destruct (bool_decide (Subscription.status s2 = ACTIVE)); [|done].
  destruct (products (session w2) !! pid) as [p|]; simpl; [|done].
  destruct (Product.is_active p && Product.is_pre_order_eligible p); [|done].
  destruct (not_started (clock w2) p); [done|].
  destruct (ended (clock w2) p); [done|].
  destruct (over_capacity p q); [done|].
  rewrite !validate_cases.
  unfold count_exceeded, value_exceeded, subscription_plan, current_month_orders,
    current_month_value, month_pre_orders.
  rewrite Hclk, Hpo, Hpl, Hpid, Hlim, Hval.
  destruct (_ && _); [done|].
  destruct (subscription_plans (session w2) !! Subscription.subscription_plan_id s2);
    [|done].
  destruct (Py.float_of_int q); [|done].
  destruct (_ && _); done.
Qed.

Lemma row_after_renewal_view w sub :
  quota_view (row_after_renewal w sub) = quota_view sub.
Proof.
  unfold row_after_renewal, renewal_result.
  destruct (subscription_plan (session w) sub); [|done].
  destruct (charge_subscription (gateway w) _); [done|].
  destruct (Subscription.next_billing_date sub); done.
Qed.

(** X12.  The billing sweep changes no pre-order, product or plan, so the usage
    the quota check computes is the same after it, and every
    [create_pre_order] call gets the outcome it would have got before: the
    reset of the counters frees no quota. *)
Theorem billing_sweep_keeps_quota w w' :
  process_billing_cycle w = (inr tt, w') ->
  pre_orders (session w') = pre_orders (session w)
  /\ products (session w') = products (session w)
  /\ subscription_plans (session w') = subscription_plans (session w)
  /\ (forall sid,
        current_month_orders (session w') sid (clock w')
        = current_month_orders (session w) sid (clock w)
        /\ current_month_value (session w') sid (clock w')
           = current_month_value (session w) sid (clock w))
  /\ forall sid pid q var prio,
       outcome (create_pre_order sid pid q var prio w')
       = outcome (create_pre_order sid pid q var prio w).
Proof.
  intros H.
  destruct (process_billing_cycle_rows w)
    as (w'' & Hrun & Hpl & Hpr & Hpo & _ & Hck & Hrows & _).
  rewrite Hrun in H. injection H as <-.
  repeat split; try done.
  - unfold current_month_orders, month_pre_orders. rewrite Hpo, Hck. done.
  - unfold current_month_value, month_pre_orders. rewrite Hpo, Hck. done.
  - intros sid pid q var prio. apply create_pre_order_outcome_agree.
    repeat split; try done.
    intros k. rewrite Hrows.
    destruct (subscriptions (session w) !! k) as [s|]; simpl; [|done].
    destruct (is_due _ s); [|done]. rewrite row_after_renewal_view. done.
Qed.

Lemma date_add_days d n : DateTime.date (d + DateTime.timedelta_days n) = DateTime.date d + n.
Proof.
  unfold DateTime.date, DateTime.toordinal, DateTime.timedelta_days, DateTime.us_per_day.
  rewrite Z.div_add by lia. lia.
Qed.

Lemma renewal_step_outbox w r :
  exists n,
    outbox (renewal_step r w).2 = n :: outbox w /\ billing_notice_of r.1 n = true.
Proof.
  unfold renewal_step, try_except. rewrite renewal_cases.
  destruct (subscriptions (session w) !! r.1) as [sub|].
  - destruct (renewal_result w sub) as [e|sub'].
    + eexists. split; [reflexivity|]. apply Z.eqb_refl.
    + eexists. split; [reflexivity|]. apply Z.eqb_refl.
  - eexists. split; [reflexivity|]. apply Z.eqb_refl.
Qed.

(** The loop of the sweep sends billing notifications only about the
    subscriptions it goes through. *)
Lemma sweep_outbox sid (l : list (Z * Subscription.t)) :
  forall w,
    sid ∉ l.*1 ->
    List.filter (billing_notice_of sid) (outbox (for_each l renewal_step w).2)
    = List.filter (billing_notice_of sid) (outbox w).
Proof.
  induction l as [|r l IH]; intros w Hnin; [done|].
  rewrite fmap_cons, not_elem_of_cons in Hnin. destruct Hnin as [Hne Hnin].
  destruct (renewal_step_run w r) as (w1 & Hstep & _).
  destruct (renewal_step_outbox w r) as (n & Hout & Hn).
  rewrite Hstep in Hout. simpl in Hout.
  simpl. unfold bind. rewrite Hstep. rewrite (IH w1 Hnin), Hout. simpl.
  replace (billing_notice_of sid n) with false; [done|].
  symmetry. apply not_true_is_false. intros Hsid. apply Hne.
  destruct n; simpl in *; try discriminate;
    apply Z.eqb_eq in Hn, Hsid; congruence.
Qed.

(** X13.  A subscription renewed by a sweep is left alone by a second sweep at
    the same clock, unless it was overdue by a whole period: its row is not
    advanced again and no further billing notification is sent about it. *)
Theorem billing_sweep_twice w sid sub plan d :
  subscriptions (session w) !! sid = Some sub ->
  is_due (DateTime.date (clock w)) sub = true ->
  subscription_plan (session w) sub = Some plan ->
  Subscription.next_billing_date sub = Some d ->
  charge_subscription (gateway w) (renewal_charge sub plan) = None ->
  DateTime.date (clock w)
    < DateTime.date d + period_days (SubscriptionPlan.billing_frequency plan) ->
  exists w1 w2,
    process_billing_cycle w = (inr tt, w1)
    /\ process_billing_cycle w1 = (inr tt, w2)
    /\ subscriptions (session w1) !! sid
       = Some (renewed sub
                 (d + DateTime.timedelta_days
                        (period_days (SubscriptionPlan.billing_frequency plan))))
    /\ subscriptions (session w2) !! sid = subscriptions (session w1) !! sid
    /\ List.filter (billing_notice_of sid) (outbox w2)
       = List.filter (billing_notice_of sid) (outbox w1).
Proof.
  intros Hs Hdue Hpl Hd Hch Hlt.
  destruct (process_billing_cycle_rows w)
    as (v1 & Hrun1 & _ & _ & _ & _ & Hck1 & Hrows1 & _).
  destruct (process_billing_cycle_rows v1)
    as (v2 & Hrun2 & _ & _ & _ & _ & _ & Hrows2 & _).
  exists v1, v2.
  assert (Hrow1 : subscriptions (session v1) !! sid
                  = Some (renewed sub
                            (d + DateTime.timedelta_days
                                   (period_days (SubscriptionPlan.billing_frequency plan))))).
  { rewrite Hrows1, Hs. simpl. rewrite Hdue.
    unfold row_after_renewal, renewal_result. rewrite Hpl, Hch, Hd. done. }
  assert (Hnot : is_due (DateTime.date (clock v1))
                   (renewed sub
                      (d + DateTime.timedelta_days
                             (period_days (SubscriptionPlan.billing_frequency plan))))
                 = false).
  { unfold is_due. simpl. rewrite date_add_days, Hck1.
    rewrite (proj2 (Z.leb_gt _ _)) by lia. rewrite andb_false_r. done. }
  split; [exact Hrun1|]. split; [exact Hrun2|]. split; [exact Hrow1|]. split.
  - rewrite Hrows2, Hrow1. simpl. rewrite Hnot. done.
  - replace v2 with (process_billing_cycle v1).2 by (rewrite Hrun2; done).
    rewrite process_billing_cycle_unfold. apply sweep_outbox.
    intros (sub' & Hs' & Hd')%due_subscriptions_elem.
    rewrite Hrow1 in Hs'. injection Hs' as <-. congruence.
Qed.

(** X14.  A renewal that fails changes nothing. *)
Theorem renewal_failure_unchanged w sid e w' :
  _process_subscription_renewal sid w = (inl e, w') -> w' = w.
Proof.
  rewrite renewal_cases.
  destruct (subscriptions (session w) !! sid) as [sub|]; [|congruence].
  destruct (renewal_result w sub); congruence.
Qed.

Lemma filter_all_false {A} (f : A -> bool) (l : list A) :
  (forall x, x ∈ l -> f x = false) -> List.filter f l = [].
Proof.
  induction l as [|a l IH]; intros H; simpl; [done|].
  rewrite (H a) by apply list_elem_of_here.
  apply IH. intros x Hx. apply H. apply list_elem_of_further. done.
Qed.

(** X15.  A sweep that finds no subscription due returns and leaves the
    world as it is: nothing is written or committed, no notification sent. *)
Theorem billing_sweep_nothing_due w :
  (forall sid sub,
     subscriptions (session w) !! sid = Some sub ->
     is_due (DateTime.date (clock w)) sub = false) ->
  process_billing_cycle w = (inr tt, w).
Proof.
  intros H. rewrite process_billing_cycle_unfold.
  unfold due_subscriptions. rewrite filter_all_false; [done|].
  intros [k s] Hin. apply elem_of_map_to_list in Hin. simpl. eauto.
Qed.

Lemma pending_pre_orders_elem db sid k :
  k ∈ pending_pre_orders db sid
  <-> exists o, pre_orders db !! k = Some o
                /\ PreOrder.subscription_id o = sid /\ PreOrder.status o = PENDING.
Proof.
  unfold pending_pre_orders. split.
  - intros ([k' o] & -> & Hr)%list_elem_of_fmap.
    apply list_elem_of_In, filter_In in Hr as [Hr Hf].
    apply list_elem_of_In, elem_of_map_to_list in Hr. simpl in *.
    apply andb_true_iff in Hf as [H1 H2].
    apply Z.eqb_eq in H1. apply bool_decide_eq_true in H2. eauto.
  - intros (o & Ho & Hs & Hst). apply list_elem_of_fmap. exists (k, o). split; [done|].
    apply list_elem_of_In, filter_In. split.
    + apply list_elem_of_In, elem_of_map_to_list. done.
    + simpl. rewrite Hs, Z.eqb_refl, Hst. done.
Qed.

Lemma pending_pre_orders_NoDup db sid : NoDup (pending_pre_orders db sid).
Proof. apply filter_fst_NoDup, NoDup_fst_map_to_list. Qed.

(** The loop of [cancel_subscription] over pre-orders it can cancel. *)
Lemma cancel_loop sid (l : list Z) :
  NoDup l ->
  forall v s,
    subscriptions (session v) !! sid = Some s ->
    (forall id, id ∈ l ->
       exists o, pre_orders (session v) !! id = Some o
                 /\ PreOrder.subscription_id o = sid
                 /\ PreOrder.status o = PENDING
                 /\ refundable v o) ->
    exists v' s',
      for_each l cancel_pre_order v = (inr tt, v')
      /\ subscriptions (session v') !! sid = Some s'
      /\ s' = Subscription.set_current_preorder_value
                (Subscription.current_preorder_value s')
                (Subscription.set_current_month_preorders
                   (Subscription.current_month_preorders s - Z.of_nat (length l)) s)
      /\ (forall k, k <> sid ->
            subscriptions (session v') !! k = subscriptions (session v) !! k)
      /\ (forall k,
            pre_orders (session v') !! k
            = if bool_decide (k ∈ l)
              then cancelled_row <$> pre_orders (session v) !! k
              else pre_orders (session v) !! k)
      /\ (forall k, is_Some (products (session v') !! k)
                    <-> is_Some (products (session v) !! k))
      /\ subscription_plans (session v') = subscription_plans (session v)
      /\ clock v' = clock v
      /\ gateway v' = gateway v.
Proof.
  induction l as [|id l IH]; intros Hnd v s Hs Hall.
  - exists v, s. simpl. repeat split; try done.
    unfold Subscription.set_current_preorder_value,
      Subscription.set_current_month_preorders.
    destruct s. simpl. f_equal. lia.
  - apply NoDup_cons in Hnd as [Hid Hnd].
    destruct (Hall id (list_elem_of_here _ _)) as (o & Ho & Hsid & Hst & [[p Hp] Href]).
    pose proof (cancel_pre_order_cases v id) as Hstep.
    rewrite Ho, Hst, Hp, Hsid, Hs in Hstep. simpl in Hstep.
    set (s1 := Subscription.set_current_preorder_value
                 (Subscription.current_preorder_value s - PreOrder.total_amount o)%float
                 (Subscription.set_current_month_preorders
                    (Subscription.current_month_preorders s - 1) s)).
    assert (Hv1 : exists v1,
               cancel_pre_order id v = (inr tt, v1)
               /\ subscriptions (session v1) = <[sid := s1]> (subscriptions (session v))
               /\ pre_orders (session v1) = <[id := cancelled_row o]> (pre_orders (session v))
               /\ products (session v1)
                  = <[PreOrder.product_id o :=
                        Product.set_current_pre_orders
                          (Product.current_pre_orders p - PreOrder.quantity o) p]>
                      (products (session v))
               /\ subscription_plans (session v1) = subscription_plans (session v)
               /\ clock v1 = clock v /\ gateway v1 = gateway v).
    { unfold cancelled_row.
      destruct (String.eqb (PreOrder.payment_status o) "charged") eqn:Hch.
      - rewrite (Href eq_refl) in Hstep. eexists. split; [exact Hstep|].
        simpl. rewrite Hsid, insert_insert_eq. done.
      - eexists. split; [exact Hstep|]. simpl. rewrite Hsid. done. }
    destruct Hv1 as (v1 & Hrun1 & Hsubs1 & Hpo1 & Hpr1 & Hpl1 & Hck1 & Hgw1).
    destruct (IH Hnd v1 s1) as (v' & s' & Hrun & Hs' & Heq & Hother & Hpos & Hprods & Hpl & Hck & Hgw).
    { rewrite Hsubs1. apply lookup_insert_eq. }
    { intros id' Hin.
      destruct (Hall id' (list_elem_of_further _ _ _ Hin)) as (o' & Ho' & Hsid' & Hst' & [Hp' Href']).
      exists o'. assert (id' <> id) by (intros ->; done).
      rewrite Hpo1, lookup_insert_ne by done. repeat split; try done.
      - rewrite Hpr1. destruct (decide (PreOrder.product_id o = PreOrder.product_id o')) as [->|Hne].
        + rewrite lookup_insert_eq. eauto.
        + rewrite lookup_insert_ne by done. done.
      - rewrite Hgw1. done. }
    exists v', s'. simpl. unfold bind. rewrite Hrun1, Hrun.
    repeat split; try congruence.
    + rewrite Heq at 1.
      unfold s1, Subscription.set_current_preorder_value,
        Subscription.set_current_month_preorders.
      destruct s. simpl. f_equal. lia.
    + intros k Hk. rewrite Hother, Hsubs1, lookup_insert_ne by done. done.
    + intros k. rewrite Hpos, Hpo1.
      destruct (decide (k = id)) as [->|Hne].
      * rewrite (bool_decide_eq_false_2 (id ∈ l)) by done.
        rewrite bool_decide_eq_true_2 by apply list_elem_of_here.
        rewrite lookup_insert_eq, Ho. done.
      * rewrite lookup_insert_ne by done.
        destruct (decide (k ∈ l)) as [Hin|Hnin].
        -- rewrite !bool_decide_eq_true_2; [done| |done]. apply list_elem_of_further. done.
        -- rewrite !bool_decide_eq_false_2; [done| |done].
           intros [?|?]%elem_of_cons; done.
    + intros Hk. apply Hprods in Hk. rewrite Hpr1 in Hk.
      destruct (decide (PreOrder.product_id o = k)) as [<-|Hne]; [eauto|].
      rewrite lookup_insert_ne in Hk by done. done.
    + intros Hk. apply Hprods. rewrite Hpr1.
      destruct (decide (PreOrder.product_id o = k)) as [<-|Hne].
      * rewrite lookup_insert_eq. eauto.
      * rewrite lookup_insert_ne by done. done.
Qed.

(** X10.  [cancel_subscription] on a missing or an already cancelled
    subscription. *)
Theorem cancel_subscription_rejections w sid immediate :
  (subscriptions (session w) !! sid = None ->
   cancel_subscription sid immediate w = (inl (ValueError "Subscription not found"), w))
  /\ (forall sub,
        subscriptions (session w) !! sid = Some sub ->
        Subscription.status sub = SUB_CANCELLED ->
        cancel_subscription sid immediate w
        = (inl (ValueError "Subscription already cancelled"), w)).
Proof.
  split.
  - intros H. unfold cancel_subscription. mstep. mstep. rewrite H. done.
  - intros sub H Hst. unfold cancel_subscription. mstep. mstep. rewrite H. simpl.
    mstep. rewrite Hst. done.
Qed.

(** X11.  [cancel_subscription] marks the subscription cancelled at once, with
    or without [immediate], cancels every pending pre-order under it and
    commits. *)
Theorem cancel_subscription_cascade w sid immediate sub :
  subscriptions (session w) !! sid = Some sub ->
  Subscription.status sub <> SUB_CANCELLED ->
  cascade_ready w sid ->
  exists w' sub',
    cancel_subscription sid immediate w = (inr tt, w')
    /\ committed w' = session w'
    /\ subscriptions (session w') !! sid = Some sub'
    /\ Subscription.status sub' = SUB_CANCELLED
    /\ Subscription.end_date sub'
       = (if immediate then Some (clock w) else Subscription.end_date sub)
    /\ Subscription.auto_renew sub'
       = (if immediate then Subscription.auto_renew sub else false)
    /\ Subscription.next_billing_date sub' = Subscription.next_billing_date sub
    /\ Subscription.current_month_preorders sub'
       = Subscription.current_month_preorders sub
         - Z.of_nat (length (pending_pre_orders (session w) sid))
    /\ (forall k,
          pre_orders (session w') !! k
          = if bool_decide (k ∈ pending_pre_orders (session w) sid)
            then cancelled_row <$> pre_orders (session w) !! k
            else pre_orders (session w) !! k)
    /\ pending_pre_orders (session w') sid = [].
Proof.
  intros Hs Hst Hready.
  set (sub_c :=
         if immediate then
           Subscription.set_end_date (Some (clock w))
             (Subscription.set_status SUB_CANCELLED sub)
         else
           Subscription.set_status SUB_CANCELLED
             (Subscription.set_auto_renew false sub)).
  set (v := mkWorld (put_subscription sid sub_c (session w)) (committed w) (clock w)
              (gateway w) (outbox w)).
  destruct (cancel_loop sid (pending_pre_orders (session w) sid)
              (pending_pre_orders_NoDup _ _) v sub_c)
    as (v' & s' & Hloop & Hs' & Heq & _ & Hpos & _ & _ & _ & _).
  { simpl. apply lookup_insert_eq. }
  { intros id (o & Ho & Hsid & Hpend)%pending_pre_orders_elem.
    exists o. repeat split; try done; apply (Hready id o Ho Hsid Hpend). }
  set (done_ := mkWorld (session v') (session v') (clock v') (gateway v')
                  (send_subscription_cancelled (Subscription.customer_id sub_c) sid immediate
                   :: outbox v')).
  assert (Hrun : cancel_subscription sid immediate w = (inr tt, done_)).
  { unfold cancel_subscription. mstep. mstep. rewrite Hs. simpl.
    mstep. rewrite bool_decide_eq_false_2 by done. simpl.
    mstep. mstep. mstep. unfold bind at 1.
    match goal with
    | |- (let (s, w') := ?X in _) = _ =>
        replace X with (@inr Exn unit tt, v') by (symmetry; exact Hloop)
    end.
    reflexivity. }
  exists done_, s'. split; [exact Hrun|]. simpl.
  repeat split; try done.
  - rewrite Heq. unfold sub_c. destruct immediate; done.
  - rewrite Heq. unfold sub_c. destruct immediate; done.
  - rewrite Heq. unfold sub_c. destruct immediate; done.
  - rewrite Heq. unfold sub_c. destruct immediate; done.
  - rewrite Heq. unfold sub_c. destruct immediate; done.
  - unfold pending_pre_orders. rewrite filter_all_false; [done|].
    intros [k o'] Hin. apply elem_of_map_to_list in Hin. simpl.
    rewrite Hpos in Hin. simpl in Hin.
    destruct (PreOrder.subscription_id o' =? sid) eqn:Hsid'; [|done]. simpl.
    apply Z.eqb_eq in Hsid'. apply bool_decide_eq_false. intros Hpend.
    case_bool_decide as Hk.
    + destruct (pre_orders (session w) !! k) as [o|]; [|done]. simpl in Hin.
      injection Hin as <-. unfold cancelled_row in Hpend.
      destruct (String.eqb (PreOrder.payment_status o) "charged"); done.
    + apply Hk. apply pending_pre_orders_elem. eauto.
Qed.

(** X6.  [create_pre_order] under a subscription that is missing or not
    active: paused, cancelled or expired. *)
Theorem create_pre_order_requires_active w sid pid q var prio :
  (forall sub, subscriptions (session w) !! sid = Some sub ->
               Subscription.status sub <> ACTIVE) ->
  create_pre_order sid pid q var prio w
  = (inl (ValueError "Active subscription not found"), w).
Proof.
  intros H. rewrite create_pre_order_cases. unfold active_subscription.
  destruct (subscriptions (session w) !! sid) as [sub|]; simpl; [|done].
  rewrite bool_decide_eq_false_2; [done|]. apply H. done.
Qed.

(** X7.  [cancel_pre_order] persists all of a cancellation or nothing: when it
    raises, whatever the reason, the store is as before; when it returns, the
    store is the session. *)
Theorem cancel_pre_order_all_or_nothing w id r w' :
  cancel_pre_order id w = (r, w') ->
  match r with
  | inl _ => committed w' = committed w
  | inr _ => committed w' = session w'
  end.
Proof.
  rewrite cancel_pre_order_cases.
  destruct (pre_orders (session w) !! id) as [o|]; [|intros [= <- <-]; done].
  destruct (bool_decide (PreOrder.status o = CANCELLED)); [intros [= <- <-]; done|].
  destruct (_ || _); [intros [= <- <-]; done|].
  destruct (products (session w) !! PreOrder.product_id o) as [p|];
    [|intros [= <- <-]; done].
  destruct (subscriptions (session w) !! PreOrder.subscription_id o) as [s|];
    [|intros [= <- <-]; done].
  destruct (String.eqb (PreOrder.payment_status o) "charged").
  - destruct (refund_payment (gateway w) _); intros [= <- <-]; done.
  - intros [= <- <-]. done.
Qed.

(** X7 on an example world. *)
Lemma cancel_pre_order_all_or_nothing_witness :
  committed (after (cancel_pre_order 1) ex_world_charged) = committed ex_world_charged.
Proof.
  apply (cancel_pre_order_all_or_nothing ex_world_charged 1
           (inl (GatewayError "refund failed"))).
  vm_compute. reflexivity.
Defined.

(** X1 on an example world. *)
Lemma create_pre_order_rejection_unchanged_witness :
  after (create_pre_order 1 3 1 None 1) ex_world_full = ex_world_full.
Proof.
  apply (create_pre_order_rejection_unchanged ex_world_full 1 3 1 None 1 QuotaExceeded_count).
  vm_compute. reflexivity.
Defined.

(** X2 on an example world. *)
Lemma create_pre_order_keeps_pre_orders_witness :
  pre_orders (session ex_world_tenth) !! 2 = None
  /\ PreOrder.status <$> pre_orders (session ex_world_full) !! 2 = Some PENDING.
Proof.
  destruct (create_pre_order_keeps_pre_orders ex_world_tenth 1 2 1 None 1 2
              (created_pre_order ex_now 1 2 1 None 1
                 (Subscription.set_current_preorder_value 0.1%float
                    (Subscription.set_current_month_preorders 1 (ex_subscription 7 "pm_1")))
                 (ex_product 0.2%float None) ex_plan 1%float)
              ex_world_full ltac:(vm_compute; reflexivity))
    as (Hfresh & Hstored & _ & Hst & _).
  split; [exact Hfresh|]. rewrite Hstored. reflexivity.
Defined.

(** X3 on an example world. *)
Lemma create_pre_order_counters_witness :
  counters (session ex_world_sixty) 1 = Some (0 + 1, (0 + 60)%float).
Proof.
  destruct (create_pre_order_counters ex_world 1 3 1 None 1 1
              (created_pre_order ex_now 1 3 1 None 1 (ex_subscription 7 "pm_1")
                 (ex_product 60%float None) ex_plan 1%float)
              ex_world_sixty ltac:(vm_compute; reflexivity))
    as (sub & p & Hs & _ & Hrow & _).
  unfold counters. rewrite Hrow. vm_compute in Hs. injection Hs as <-.
  vm_compute. reflexivity.
Defined.

(** X4 on an example world. *)
Lemma create_pre_order_within_capacity_witness :
  exists p', products (session ex_world_sixty) !! 3 = Some p'
             /\ Product.pre_order_limit p' = Some 10
             /\ Product.current_pre_orders p' <= 10.
Proof.
  apply (create_pre_order_within_capacity ex_world 1 3 1 None 1 1
           (created_pre_order ex_now 1 3 1 None 1 (ex_subscription 7 "pm_1")
              (ex_product 60%float None) ex_plan 1%float)
           ex_world_sixty 10).
  - vm_compute. reflexivity.
  - vm_compute. reflexivity.
  - discriminate.
Defined.

Lemma cancel_pre_order_not_found_witness :
  cancel_pre_order 9 ex_world = (inl (ValueError "Pre-order not found"), ex_world).
Proof. apply cancel_pre_order_not_found. vm_compute. reflexivity. Defined.

(** X8 on an example world. *)
Lemma cancel_pre_order_twice_witness :
  let w1 := after (cancel_pre_order 1) ex_world_sixty in
  cancel_pre_order 1 w1 = (inl InvalidState_already_cancelled, w1).
Proof.
  apply (cancel_pre_order_twice ex_world_sixty 1). vm_compute. reflexivity.
Defined.

(** X5 on an example world. *)
Lemma create_pre_order_counts_witness :
  current_month_orders (session ex_world_full) 1 (clock ex_world_full)
  = current_month_orders (session ex_world_tenth) 1 (clock ex_world_tenth) + 1.
Proof.
  apply (create_pre_order_counts ex_world_tenth 1 2 1 None 1 2
           (created_pre_order ex_now 1 2 1 None 1
              (Subscription.set_current_preorder_value 0.1%float
                 (Subscription.set_current_month_preorders 1 (ex_subscription 7 "pm_1")))
              (ex_product 0.2%float None) ex_plan 1%float)
           ex_world_full).
  vm_compute. reflexivity.
Defined.

(** X9 on an example world. *)
Lemma cancel_pre_order_uncounts_witness :
  let w1 := after (cancel_pre_order 2) ex_world_full in
  current_month_orders (session w1) 1 (clock w1) = 2 - 1.
Proof.
  pose proof (cancel_pre_order_uncounts ex_world_full 2
                (created_pre_order ex_now 1 2 1 None 1
                   (Subscription.set_current_preorder_value 0.1%float
                      (Subscription.set_current_month_preorders 1 (ex_subscription 7 "pm_1")))
                   (ex_product 0.2%float None) ex_plan 1%float)
                (after (cancel_pre_order 2) ex_world_full)
                ltac:(vm_compute; reflexivity) ltac:(vm_compute; reflexivity) 1) as H.
  intros w1. subst w1. rewrite H. vm_compute. reflexivity.
Defined.

(** X12 on an example world. *)
Lemma billing_sweep_keeps_quota_witness :
  let w' := after process_billing_cycle ex_world_full in
  counters (session w') 1 = Some (0, 0%float)
  /\ current_month_orders (session w') 1 (clock w') = 2
  /\ outcome (create_pre_order 1 3 1 None 1 w') = Some QuotaExceeded_count.
Proof.
  destruct (billing_sweep_keeps_quota ex_world_full (after process_billing_cycle ex_world_full)
              ltac:(vm_compute; reflexivity))
    as (_ & _ & _ & Husage & Hout).
  intros w'. subst w'.
  split; [vm_compute; reflexivity|]. split.
  - rewrite (proj1 (Husage 1)). vm_compute. reflexivity.
  - rewrite Hout. vm_compute. reflexivity.
Defined.

(** X13 on an example world. *)
Lemma billing_sweep_twice_witness :
  exists w1 w2,
    process_billing_cycle ex_world = (inr tt, w1)
    /\ process_billing_cycle w1 = (inr tt, w2)
    /\ subscriptions (session w2) !! 1 = subscriptions (session w1) !! 1
    /\ List.filter (billing_notice_of 1) (outbox w2)
       = List.filter (billing_notice_of 1) (outbox w1).
Proof.
  destruct (billing_sweep_twice ex_world 1 (ex_subscription 7 "pm_1") ex_plan ex_now
              ltac:(vm_compute; reflexivity) ltac:(vm_compute; reflexivity)
              ltac:(vm_compute; reflexivity) ltac:(vm_compute; reflexivity)
              ltac:(vm_compute; reflexivity) ltac:(vm_compute; reflexivity))
    as (w1 & w2 & H1 & H2 & _ & Hrow & Hsent).
  exists w1, w2. split; [exact H1|]. split; [exact H2|]. split; assumption.
Defined.

(** X14 on an example world. *)
Lemma renewal_failure_unchanged_witness :
  after (_process_subscription_renewal 2) ex_world = ex_world.
Proof.
  apply (renewal_failure_unchanged ex_world 2 (GatewayError "card declined")).
  vm_compute. reflexivity.
Defined.

(** X15 on an example world. *)
Lemma billing_sweep_nothing_due_witness :
  process_billing_cycle ex_world_early = (inr tt, ex_world_early).
Proof.
  apply billing_sweep_nothing_due. intros sid sub Hs.
  unfold ex_world_early, ex_db in Hs. simpl in Hs.
  apply lookup_insert_Some in Hs as [[_ <-]|[_ Hs]]; [vm_compute; reflexivity|].
  apply lookup_singleton_Some in Hs as [_ <-]. vm_compute. reflexivity.
Defined.

Lemma cascade_ready_check w sid : cascade_ready_b w sid = true -> cascade_ready w sid.
Proof.
  unfold cascade_ready_b. rewrite forallb_forall.
  intros H id o Ho Hsid Hst.
  specialize (H (id, o)). simpl in H.
  rewrite Hsid, Z.eqb_refl, Hst in H. simpl in H.
  assert (Hr : refundable_b w o = true).
  { apply H. apply list_elem_of_In, elem_of_map_to_list. done. }
  unfold refundable_b in Hr. apply andb_true_iff in Hr as [Hp Href].
  split.
  - destruct (products (session w) !! PreOrder.product_id o); [eauto|done].
  - intros Hch. rewrite Hch in Href.
    destruct (refund_payment (gateway w) _); done.
Qed.

(** X10 on an example world. *)
Lemma cancel_subscription_rejections_witness :
  cancel_subscription 9 true ex_world = (inl (ValueError "Subscription not found"), ex_world).
Proof.
  apply (proj1 (cancel_subscription_rejections ex_world 9 true)).
  vm_compute. reflexivity.
Defined.

(** X11 on an example world. *)
Lemma cancel_subscription_cascade_witness :
  exists w' sub',
    cancel_subscription 1 false ex_world_full = (inr tt, w')
    /\ subscriptions (session w') !! 1 = Some sub'
    /\ Subscription.status sub' = SUB_CANCELLED
    /\ Subscription.current_month_preorders sub' = 2 - 2
    /\ pending_pre_orders (session w') 1 = [].
Proof.
  destruct (cancel_subscription_cascade ex_world_full 1 false
              (Subscription.set_current_preorder_value (0.1 + 0.2)%float
                 (Subscription.set_current_month_preorders 2 (ex_subscription 7 "pm_1")))
              ltac:(vm_compute; reflexivity) ltac:(discriminate)
              (cascade_ready_check ex_world_full 1 ltac:(vm_compute; reflexivity)))
    as (w' & sub' & Hrun & _ & Hrow & Hst & _ & _ & _ & Hcount & _ & Hnone).
  exists w', sub'. repeat split; try done;
    rewrite Hcount; vm_compute; reflexivity.
Defined.

(** X6 on an example world. *)
Lemma create_pre_order_requires_active_witness :
  let w := after (cancel_subscription 1 true) ex_world in
  create_pre_order 1 3 1 None 1 w = (inl (ValueError "Active subscription not found"), w).
Proof.
  apply create_pre_order_requires_active. intros sub Hs.
  vm_compute in Hs. injection Hs as <-. discriminate.
Defined.

(** ** The subscription lifecycle and the analytics *)

Ltac sstep := unfold sbind at 1; simpl.

Lemma service_eta s : mkService (world s) (customers s) (lifecycle_outbox s) = s.
Proof. destruct s. reflexivity. Qed.

Lemma create_subscription_cases s cid pid method auto_renew :
  create_subscription cid pid method auto_renew s =
    match customers s !! cid with
    | None => (inl (ValueError "Customer not found"), s)
    | Some _ =>
        match active_plan (session (world s)) pid with
        | None => (inl (ValueError "Subscription plan not found or inactive"), s)
        | Some plan =>
            if has_active_subscription (session (world s)) cid
            then (inl (ValueError "Customer already has an active subscription"), s)
            else
              match charge_subscription (gateway (world s))
                      (initial_charge cid method plan) with
              | Some e => (inl (ValueError ("Payment failed: " +:+ exn_str e)), s)
              | None =>
                  let sub := new_subscription (clock (world s)) cid pid method
                               auto_renew plan in
                  let id := fresh_id (subscriptions (session (world s))) in
                  (inr (id, sub),
                   service_committed s (put_subscription id sub (session (world s)))
                     (send_subscription_welcome cid id :: lifecycle_outbox s))
              end
        end
    end.
Proof.
  unfold create_subscription, initial_charge, new_subscription, service_committed.
  sstep. sstep. unfold lift at 1. simpl.
  destruct (customers s !! cid) as [c|]; simpl; [|rewrite service_eta; done].
  sstep. sstep. unfold lift at 1. simpl.
  destruct (active_plan (session (world s)) pid) as [plan|]; simpl;
    [|rewrite service_eta; done].
  sstep. unfold lift at 1. simpl.
  destruct (has_active_subscription (session (world s)) cid); simpl;
    [rewrite service_eta; done|].
  sstep. sstep. unfold lift at 1, try_except, charge. simpl.
  destruct (SubscriptionPlan.billing_frequency plan);
    (destruct (charge_subscription (gateway (world s)) _) as [e|]; simpl;
     [rewrite service_eta; done|reflexivity]).
Qed.

Lemma pause_subscription_cases s sid :
  pause_subscription sid s =
    match subscriptions (session (world s)) !! sid with
    | None => (inl (ValueError "Subscription not found"), s)
    | Some sub =>
        if bool_decide (Subscription.status sub = ACTIVE)
        then (inr tt,
              service_committed s
                (put_subscription sid (Subscription.set_status PAUSED sub)
                   (session (world s)))
                (send_subscription_paused (Subscription.customer_id sub) sid
                 :: lifecycle_outbox s))
        else (inl (ValueError "Can only pause active subscriptions"), s)
    end.
Proof.
  unfold pause_subscription, service_committed. sstep. sstep. unfold lift at 1. simpl.
  destruct (subscriptions (session (world s)) !! sid) as [sub|]; simpl;
    [|rewrite service_eta; done].
  sstep. unfold lift at 1. simpl.
  destruct (bool_decide (Subscription.status sub = ACTIVE)); simpl;
    [reflexivity|rewrite service_eta; done].
Qed.

Lemma resume_subscription_cases s sid :
  resume_subscription sid s =
    match subscriptions (session (world s)) !! sid with
    | None => (inl (ValueError "Subscription not found"), s)
    | Some sub =>
        if bool_decide (Subscription.status sub = PAUSED)
        then (inr tt,
              service_committed s
                (put_subscription sid (Subscription.set_status ACTIVE sub)
                   (session (world s)))
                (send_subscription_resumed (Subscription.customer_id sub) sid
                 :: lifecycle_outbox s))
        else (inl (ValueError "Can only resume paused subscriptions"), s)
    end.
Proof.
  unfold resume_subscription, service_committed. sstep. sstep. unfold lift at 1. simpl.
  destruct (subscriptions (session (world s)) !! sid) as [sub|]; simpl;
    [|rewrite service_eta; done].
  sstep. unfold lift at 1. simpl.
  destruct (bool_decide (Subscription.status sub = PAUSED)); simpl;
    [reflexivity|rewrite service_eta; done].
Qed.

(** X16.  [pause_subscription] pauses an active subscription and commits, and
    rejects every other call without a change. *)
Theorem pause_subscription_transition s sid :
  (subscriptions (session (world s)) !! sid = None ->
   pause_subscription sid s = (inl (ValueError "Subscription not found"), s))
  /\ (forall sub,
        subscriptions (session (world s)) !! sid = Some sub ->
        Subscription.status sub <> ACTIVE ->
        pause_subscription sid s
        = (inl (ValueError "Can only pause active subscriptions"), s))
  /\ (forall sub,
        subscriptions (session (world s)) !! sid = Some sub ->
        Subscription.status sub = ACTIVE ->
        exists s',
          pause_subscription sid s = (inr tt, s')
          /\ session (world s')
             = put_subscription sid (Subscription.set_status PAUSED sub)
                 (session (world s))
          /\ committed (world s') = session (world s')
          /\ outbox (world s') = outbox (world s)
          /\ lifecycle_outbox s'
             = send_subscription_paused (Subscription.customer_id sub) sid
               :: lifecycle_outbox s).
Proof.
  rewrite pause_subscription_cases. repeat split.
  - intros ->. done.
  - intros sub -> Hst. rewrite bool_decide_eq_false_2 by done. done.
  - intros sub -> Hst. rewrite bool_decide_eq_true_2 by done.
    eexists. split; [reflexivity|]. done.
Qed.

(** X17.  [resume_subscription] reactivates a paused subscription and commits,
    and rejects every other call without a change. *)
Theorem resume_subscription_transition s sid :
  (subscriptions (session (world s)) !! sid = None ->
   resume_subscription sid s = (inl (ValueError "Subscription not found"), s))
  /\ (forall sub,
        subscriptions (session (world s)) !! sid = Some sub ->
        Subscription.status sub <> PAUSED ->
        resume_subscription sid s
        = (inl (ValueError "Can only resume paused subscriptions"), s))
  /\ (forall sub,
        subscriptions (session (world s)) !! sid = Some sub ->
        Subscription.status sub = PAUSED ->
        exists s',
          resume_subscription sid s = (inr tt, s')
          /\ session (world s')
             = put_subscription sid (Subscription.set_status ACTIVE sub)
                 (session (world s))
          /\ committed (world s') = session (world s')
          /\ outbox (world s') = outbox (world s)
          /\ lifecycle_outbox s'
             = send_subscription_resumed (Subscription.customer_id sub) sid
               :: lifecycle_outbox s).
Proof.
  rewrite resume_subscription_cases. repeat split.
  - intros ->. done.
  - intros sub -> Hst. rewrite bool_decide_eq_false_2 by done. done.
  - intros sub -> Hst. rewrite bool_decide_eq_true_2 by done.
    eexists. split; [reflexivity|]. done.
Qed.

(** X18.  Pausing an active subscription and resuming it, the subscription is
    active again and each of its columns is as before the pause; every other
    row of the session is untouched, and the result is committed. *)
Theorem pause_then_resume s sid sub :
  subscriptions (session (world s)) !! sid = Some sub ->
  Subscription.status sub = ACTIVE ->
  exists s1 s2 sub2,
    pause_subscription sid s = (inr tt, s1)
    /\ Subscription.status <$> subscriptions (session (world s1)) !! sid = Some PAUSED
    /\ resume_subscription sid s1 = (inr tt, s2)
    /\ subscriptions (session (world s2)) !! sid = Some sub2
    /\ Subscription.status sub2 = ACTIVE
    /\ Subscription.customer_id sub2 = Subscription.customer_id sub
    /\ Subscription.subscription_plan_id sub2 = Subscription.subscription_plan_id sub
    /\ Subscription.start_date sub2 = Subscription.start_date sub
    /\ Subscription.end_date sub2 = Subscription.end_date sub
    /\ Subscription.next_billing_date sub2 = Subscription.next_billing_date sub
    /\ Subscription.monthly_preorder_limit sub2 = Subscription.monthly_preorder_limit sub
    /\ Subscription.current_month_preorders sub2 = Subscription.current_month_preorders sub
    /\ Subscription.total_preorder_value_limit sub2
       = Subscription.total_preorder_value_limit sub
    /\ Subscription.current_preorder_value sub2 = Subscription.current_preorder_value sub
    /\ Subscription.payment_method_id sub2 = Subscription.payment_method_id sub
    /\ Subscription.auto_renew sub2 = Subscription.auto_renew sub
    /\ (forall k, k <> sid ->
          subscriptions (session (world s2)) !! k = subscriptions (session (world s)) !! k)
    /\ subscription_plans (session (world s2)) = subscription_plans (session (world s))
    /\ products (session (world s2)) = products (session (world s))
    /\ pre_orders (session (world s2)) = pre_orders (session (world s))
    /\ committed (world s2) = session (world s2)
    /\ customers s2 = customers s.
Proof.
  intros Hs Hst.
  eexists _, _, _. split.
  { rewrite pause_subscription_cases, Hs, bool_decide_eq_true_2 by done. reflexivity. }
  split.
  { simpl. rewrite lookup_insert_eq. reflexivity. }
  split.
  { rewrite resume_subscription_cases. simpl. rewrite lookup_insert_eq. simpl.
    reflexivity. }
  split.
  { simpl. apply lookup_insert_eq. }
  simpl. repeat split.
  intros k Hk. rewrite !lookup_insert_ne by done. reflexivity.
Qed.

(** X19.  A paused subscription takes no pre-order, and the billing sweep
    passes it over: its row stays as it is and no billing notification is
    sent about it. *)
Theorem paused_subscription_dormant s sid s1 :
  pause_subscription sid s = (inr tt, s1) ->
  (forall pid q var prio,
     create_pre_order sid pid q var prio (world s1)
     = (inl (ValueError "Active subscription not found"), world s1))
  /\ (exists w2,
        process_billing_cycle (world s1) = (inr tt, w2)
        /\ subscriptions (session w2) !! sid = subscriptions (session (world s1)) !! sid
        /\ List.filter (billing_notice_of sid) (outbox w2)
           = List.filter (billing_notice_of sid) (outbox (world s1))).
Proof.
  rewrite pause_subscription_cases.
  destruct (subscriptions (session (world s)) !! sid) as [sub|] eqn:Hs; [|done].
  destruct (bool_decide (Subscription.status sub = ACTIVE)); [|done].
  intros [= <-]. split.
  - intros pid q var prio. rewrite create_pre_order_cases.
    unfold active_subscription. simpl. rewrite lookup_insert_eq. done.
  - set (w1 := world (service_committed s
                        (put_subscription sid (Subscription.set_status PAUSED sub)
                           (session (world s)))
                        (send_subscription_paused (Subscription.customer_id sub) sid
                         :: lifecycle_outbox s))).
    assert (Hrow : subscriptions (session w1) !! sid
                   = Some (Subscription.set_status PAUSED sub))
      by (simpl; apply lookup_insert_eq).
    destruct (process_billing_cycle_rows w1)
      as (w' & Hrun' & _ & _ & _ & _ & _ & Hrows & _).
    exists w'. split; [exact Hrun'|]. split.
    + rewrite Hrows, Hrow. done.
    + replace w' with (process_billing_cycle w1).2 by (rewrite Hrun'; done).
      rewrite process_billing_cycle_unfold. apply sweep_outbox.
      intros (sub' & Hs' & Hd')%due_subscriptions_elem.
      rewrite Hrow in Hs'. injection Hs' as <-. done.
Qed.

Lemma has_active_subscription_insert db id sub cid :
  Subscription.customer_id sub = cid ->
  Subscription.status sub = ACTIVE ->
  has_active_subscription (put_subscription id sub db) cid = true.
Proof.
  intros Hc Hst. unfold has_active_subscription. apply existsb_exists.
  exists (id, sub). split.
  - apply list_elem_of_In, elem_of_map_to_list. simpl. apply lookup_insert_eq.
  - simpl. rewrite Hc, Z.eqb_refl, Hst. done.
Qed.

(** X20.  What a successful [create_subscription] stores, for a plan billed
    at one of the three frequencies the function knows. *)
Theorem create_subscription_success s cid pid method auto_renew c plan days :
  customers s !! cid = Some c ->
  active_plan (session (world s)) pid = Some plan ->
  has_active_subscription (session (world s)) cid = false ->
  (SubscriptionPlan.billing_frequency plan, days) ∈ billing_periods ->
  charge_subscription (gateway (world s)) (initial_charge cid method plan) = None ->
  exists id sub s',
    create_subscription cid pid method auto_renew s = (inr (id, sub), s')
    /\ subscriptions (session (world s)) !! id = None
    /\ subscriptions (session (world s')) !! id = Some sub
    /\ (forall k, k <> id ->
          subscriptions (session (world s')) !! k
          = subscriptions (session (world s)) !! k)
    /\ committed (world s') = session (world s')
    /\ Subscription.status sub = ACTIVE
    /\ Subscription.customer_id sub = cid
    /\ Subscription.subscription_plan_id sub = pid
    /\ Subscription.start_date sub = clock (world s)
    /\ Subscription.next_billing_date sub
       = Some (clock (world s) + DateTime.timedelta_days days)
    /\ Subscription.end_date sub = Subscription.next_billing_date sub
    /\ Subscription.monthly_preorder_limit sub
       = SubscriptionPlan.preorder_limit_per_month plan
    /\ Subscription.total_preorder_value_limit sub
       = SubscriptionPlan.preorder_value_limit plan
    /\ Subscription.current_month_preorders sub = 0
    /\ Subscription.current_preorder_value sub = 0%float
    /\ Subscription.payment_method_id sub = method
    /\ Subscription.auto_renew sub = auto_renew
    /\ lifecycle_outbox s' = send_subscription_welcome cid id :: lifecycle_outbox s.
Proof.
  intros Hc Hpl Hnone Hfreq Hch.
  assert (Hdays : period_days (SubscriptionPlan.billing_frequency plan) = days).
  { unfold billing_periods in Hfreq. rewrite !elem_of_cons, elem_of_nil in Hfreq.
    destruct Hfreq as [H|[H|[H|[]]]]; injection H as H1 H2; rewrite H1, H2; reflexivity. }
  eexists _, _, _. split.
  { rewrite create_subscription_cases, Hc, Hpl, Hnone, Hch. reflexivity. }
  simpl. rewrite Hdays. repeat split.
  - apply fresh_id_fresh.
  - apply lookup_insert_eq.
  - intros k Hk. apply lookup_insert_ne. done.
Qed.

(** X21.  A [create_subscription] that raises, a declined first charge
    included, leaves everything as it was: no subscription is stored. *)
Theorem create_subscription_rejection_unchanged s cid pid method auto_renew e s' :
  create_subscription cid pid method auto_renew s = (inl e, s') -> s' = s.
Proof.
  rewrite create_subscription_cases.
  destruct (customers s !! cid); [|congruence].
  destruct (active_plan (session (world s)) pid); [|congruence].
  destruct (has_active_subscription (session (world s)) cid); [congruence|].
  destruct (charge_subscription (gateway (world s)) _); congruence.
Qed.

(** X22.  Once [create_subscription] has succeeded for a customer, a second
    call for the same customer and any active plan is rejected. *)
Theorem create_subscription_once s cid pid method auto_renew r s' :
  create_subscription cid pid method auto_renew s = (inr r, s') ->
  forall pid2 method2 auto_renew2 plan2,
    active_plan (session (world s')) pid2 = Some plan2 ->
    create_subscription cid pid2 method2 auto_renew2 s'
    = (inl (ValueError "Customer already has an active subscription"), s').
Proof.
  rewrite create_subscription_cases.
  destruct (customers s !! cid) as [c|] eqn:Hc; [|done].
  destruct (active_plan (session (world s)) pid) as [plan|]; [|done].
  destruct (has_active_subscription (session (world s)) cid); [done|].
  destruct (charge_subscription (gateway (world s)) _); [done|].
  intros [= <- <-] pid2 method2 auto_renew2 plan2 Hpl2.
  rewrite create_subscription_cases. simpl in *. rewrite Hc, Hpl2.
  rewrite has_active_subscription_insert by done. done.
Qed.

Lemma filter_length_le {A} (f g : A -> bool) (l : list A) :
  (forall x, f x = true -> g x = true) ->
  (length (List.filter f l) <= length (List.filter g l))%nat.
Proof.
  intros Hfg. induction l as [|x l IH]; simpl; [lia|].
  destruct (f x) eqn:Hf.
  - rewrite (Hfg x Hf). simpl. lia.
  - destruct (g x); simpl; lia.
Qed.

(** [get_subscription_analytics], step by step. *)
Lemma get_subscription_analytics_cases w sid :
  get_subscription_analytics sid w =
    match subscriptions (session w) !! sid with
    | None => (inl (ValueError "Subscription not found"), w)
    | Some sub =>
        let db := session w in
        let n := Z.of_nat (length (pre_orders_where db (of_subscription sid))) in
        let total :=
          Py.float_or
            (sql_sum (PreOrder.total_amount
                        <$> pre_orders_where db (of_subscription_live sid)))
            0%float in
        let report avg plan :=
          Analytics.mk sid n total avg
            (Z.of_nat (length (pre_orders_where db
                                 (of_subscription_since sid
                                    (DateTime.month_start (clock w))))))
            (current_month_value db sid (clock w))
            (Subscription.start_date sub) (Subscription.status sub)
            (SubscriptionPlan.name plan) in
        let finish avg :=
          match subscription_plan db sub with
          | None => (inl (AttributeError "'NoneType' object has no attribute 'name'"), w)
          | Some plan => (inr (report avg plan), w)
          end in
        if 0 <? n then
          match Py.float_of_int n with
          | None => (inl (OverflowError "int too large to convert to float"), w)
          | Some nf => finish (total / nf)%float
          end
        else finish 0%float
    end.
Proof.
  unfold get_subscription_analytics. mstep. mstep.
  destruct (subscriptions (session w) !! sid) as [sub|]; simpl; [|done].
  mstep.
  destruct (0 <? _); simpl.
  - mstep. unfold to_float. simpl.
    destruct (Py.float_of_int _); simpl; [|done].
    mstep. mstep. destruct (subscription_plan (session w) sub); done.
  - mstep. mstep. destruct (subscription_plan (session w) sub); done.
Qed.

(** X23.  [get_subscription_analytics] only reads.  The month's order count it
    reports is at least the count the quota check uses, since it also counts
    cancelled pre-orders, and at most the total it reports. *)
Theorem analytics_counts w sid a w' :
  get_subscription_analytics sid w = (inr a, w') ->
  w' = w
  /\ current_month_orders (session w) sid (clock w) <= Analytics.current_month_orders a
  /\ Analytics.current_month_orders a <= Analytics.total_pre_orders a
  /\ Analytics.current_month_value a = current_month_value (session w) sid (clock w).
Proof.
  rewrite get_subscription_analytics_cases.
  destruct (subscriptions (session w) !! sid) as [sub|]; [|done].
  assert (H1 : current_month_orders (session w) sid (clock w)
               <= Z.of_nat (length (pre_orders_where (session w)
                                      (of_subscription_since sid
                                         (DateTime.month_start (clock w)))))).
  { unfold current_month_orders, month_pre_orders, pre_orders_where.
    apply inj_le, filter_length_le. intros o. unfold in_month, of_subscription_since.
    intros [Ho _]%andb_true_iff. done. }
  assert (H2 : Z.of_nat (length (pre_orders_where (session w)
                                   (of_subscription_since sid
                                      (DateTime.month_start (clock w)))))
               <= Z.of_nat (length (pre_orders_where (session w) (of_subscription sid)))).
  { unfold pre_orders_where. apply inj_le, filter_length_le. intros o.
    unfold of_subscription_since, of_subscription. intros [Ho _]%andb_true_iff. done. }
  simpl.
  destruct (0 <? _).
  - destruct (Py.float_of_int _); [|done].
    destruct (subscription_plan (session w) sub); [|done].
    intros [= <- <-]. done.
  - destruct (subscription_plan (session w) sub); [|done].
    intros [= <- <-]. done.
Qed.

Lemma get_subscription_analytics_world w sid : (get_subscription_analytics sid w).2 = w.
Proof.
  rewrite get_subscription_analytics_cases.
  destruct (subscriptions (session w) !! sid) as [sub|]; [|done]. simpl.
  destruct (0 <? _).
  - destruct (Py.float_of_int _); [|done].
    destruct (subscription_plan (session w) sub); done.
  - destruct (subscription_plan (session w) sub); done.
Qed.

(** What a successful [cancel_pre_order] leaves of the tables the analytics
    read. *)
Lemma cancel_pre_order_session w id w1 :
  cancel_pre_order id w = (inr tt, w1) ->
  exists o o' sub sub',
    pre_orders (session w) !! id = Some o
    /\ subscriptions (session w) !! PreOrder.subscription_id o = Some sub
    /\ pre_orders (session w1) = <[id := o']> (pre_orders (session w))
    /\ PreOrder.subscription_id o' = PreOrder.subscription_id o
    /\ PreOrder.created_at o' = PreOrder.created_at o
    /\ subscriptions (session w1)
       = <[PreOrder.subscription_id o := sub']> (subscriptions (session w))
    /\ Subscription.status sub' = Subscription.status sub
    /\ Subscription.start_date sub' = Subscription.start_date sub
    /\ Subscription.subscription_plan_id sub' = Subscription.subscription_plan_id sub
    /\ subscription_plans (session w1) = subscription_plans (session w)
    /\ clock w1 = clock w.
Proof.
  rewrite cancel_pre_order_cases.
  destruct (pre_orders (session w) !! id) as [o|] eqn:Ho; [|done].
  destruct (bool_decide (PreOrder.status o = CANCELLED)); [done|].
  destruct (_ || _); [done|].
  destruct (products (session w) !! PreOrder.product_id o) as [p|]; [|done].
  destruct (subscriptions (session w) !! PreOrder.subscription_id o) as [s|] eqn:Hs;
    [|done].
  destruct (String.eqb (PreOrder.payment_status o) "charged").
  - destruct (refund_payment (gateway w) _); [done|].
    intros [= <-].
    exists o, (PreOrder.set_payment_status "refunded" (PreOrder.set_status CANCELLED o)),
      s, (Subscription.set_current_preorder_value
            (Subscription.current_preorder_value s - PreOrder.total_amount o)%float
            (Subscription.set_current_month_preorders
               (Subscription.current_month_preorders s - 1) s)).
    unfold db_after_cancel, put_subscription, put_product, put_pre_order. simpl.
    rewrite insert_insert_eq. done.
  - intros [= <-].
    exists o, (PreOrder.set_status CANCELLED o),
      s, (Subscription.set_current_preorder_value
            (Subscription.current_preorder_value s - PreOrder.total_amount o)%float
            (Subscription.set_current_month_preorders
               (Subscription.current_month_preorders s - 1) s)).
    unfold db_after_cancel, put_subscription, put_product, put_pre_order. simpl. done.
Qed.

(** X24.  A cancelled pre-order stays in the order counts of the analytics:
    the total and the month's count are what they were before the
    cancellation. *)
Theorem analytics_counts_after_cancel w id w1 sid a w' :
  cancel_pre_order id w = (inr tt, w1) ->
  get_subscription_analytics sid w = (inr a, w') ->
  exists a1,
    get_subscription_analytics sid w1 = (inr a1, w1)
    /\ Analytics.total_pre_orders a1 = Analytics.total_pre_orders a
    /\ Analytics.current_month_orders a1 = Analytics.current_month_orders a
    /\ Analytics.subscription_status a1 = Analytics.subscription_status a
    /\ Analytics.plan_name a1 = Analytics.plan_name a.
Proof.
  intros Hc Ha.
  destruct (cancel_pre_order_session _ _ _ Hc)
    as (o & o' & sub & sub' & Ho & Hs & Hpo & Hsid & Hat & Hsubs & Hst & Hsd & Hpl
        & Hplans & Hck).
  assert (Hcount : forall f,
            (forall x y, PreOrder.subscription_id x = PreOrder.subscription_id y ->
                         PreOrder.created_at x = PreOrder.created_at y -> f x = f y) ->
            Z.of_nat (length (pre_orders_where (session w1) f))
            = Z.of_nat (length (pre_orders_where (session w) f))).
  { intros f Hf. unfold pre_orders_where.
    rewrite (count_rows_lookup f (pre_orders (session w)) id o Ho).
    rewrite Hpo, count_rows_insert, (Hf o' o); done. }
  assert (Hrow : forall s, subscriptions (session w) !! sid = Some s ->
            exists s1, subscriptions (session w1) !! sid = Some s1
                       /\ Subscription.status s1 = Subscription.status s
                       /\ Subscription.start_date s1 = Subscription.start_date s
                       /\ subscription_plan (session w1) s1
                          = subscription_plan (session w) s).
  { intros s Hsome. rewrite Hsubs. unfold subscription_plan. rewrite Hplans.
    destruct (decide (sid = PreOrder.subscription_id o)) as [->|Hne].
    - rewrite lookup_insert_eq. exists sub'.
      assert (s = sub) as -> by congruence. rewrite Hpl. done.
    - rewrite lookup_insert_ne by done. exists s. done. }
  revert Ha. rewrite !get_subscription_analytics_cases.
  destruct (subscriptions (session w) !! sid) as [s|]; [|done].
  destruct (Hrow s eq_refl) as (s1 & -> & Hst1 & Hsd1 & Hpl1).
  cbv zeta. rewrite Hpl1, Hck.
  rewrite (Hcount (of_subscription sid))
    by (intros x y Hx _; unfold of_subscription; rewrite Hx; done).
  rewrite (Hcount (of_subscription_since sid (DateTime.month_start (clock w))))
    by (intros x y Hx Hy; unfold of_subscription_since; rewrite Hx, Hy; done).
  destruct (0 <? _).
  - destruct (Py.float_of_int _); [|done].
    destruct (subscription_plan (session w) s); [|done].
    intros [= <-]. eexists. split; [reflexivity|]. simpl. done.
  - destruct (subscription_plan (session w) s); [|done].
    intros [= <-]. eexists. split; [reflexivity|]. simpl. done.
Qed.

(** X16 on an example service. *)
Lemma pause_subscription_transition_witness :
  exists s',
    pause_subscription 1 ex_service = (inr tt, s')
    /\ committed (world s') = session (world s')
    /\ lifecycle_outbox s' = [send_subscription_paused 7 1].
Proof.
  destruct (proj2 (proj2 (pause_subscription_transition ex_service 1))
              (ex_subscription 7 "pm_1") ltac:(vm_compute; reflexivity) eq_refl)
    as (s' & Hrun & _ & Hcommit & _ & Hsent).
  exists s'. repeat split; done.
Defined.

(** X17 on an example service. *)
Lemma resume_subscription_transition_witness :
  resume_subscription 1 ex_service
  = (inl (ValueError "Can only resume paused subscriptions"), ex_service).
Proof.
  apply (proj1 (proj2 (resume_subscription_transition ex_service 1))
           (ex_subscription 7 "pm_1")).
  - vm_compute. reflexivity.
  - discriminate.
Defined.

(** X18 on an example service. *)
Lemma pause_then_resume_witness :
  exists s1 s2 sub2,
    pause_subscription 1 ex_service = (inr tt, s1)
    /\ resume_subscription 1 s1 = (inr tt, s2)
    /\ subscriptions (session (world s2)) !! 1 = Some sub2
    /\ Subscription.status sub2 = ACTIVE
    /\ Subscription.next_billing_date sub2 = Some ex_now.
Proof.
  destruct (pause_then_resume ex_service 1 (ex_subscription 7 "pm_1")
              ltac:(vm_compute; reflexivity) eq_refl)
    as (s1 & s2 & sub2 & H1 & _ & H2 & Hrow & Hst & _ & _ & _ & _ & Hnext & _).
  exists s1, s2, sub2.
  split; [exact H1|]. split; [exact H2|]. split; [exact Hrow|]. split; [exact Hst|].
  exact Hnext.
Defined.

(** X19 on an example service. *)
Lemma paused_subscription_dormant_witness :
  create_pre_order 1 1 1 None 1 (world ex_service_paused)
  = (inl (ValueError "Active subscription not found"), world ex_service_paused)
  /\ exists w2,
       process_billing_cycle (world ex_service_paused) = (inr tt, w2)
       /\ subscriptions (session w2) !! 1
          = subscriptions (session (world ex_service_paused)) !! 1
       /\ List.filter (billing_notice_of 1) (outbox w2)
          = List.filter (billing_notice_of 1) (outbox (world ex_service_paused)).
Proof.
  destruct (paused_subscription_dormant ex_service 1 ex_service_paused
              ltac:(vm_compute; reflexivity)) as [Hreject Hsweep].
  split; [apply Hreject | exact Hsweep].
Defined.

(** X20 on an example service. *)
Lemma create_subscription_success_witness :
  exists id sub s',
    create_subscription 9 1 "pm_9" true ex_service = (inr (id, sub), s')
    /\ subscriptions (session (world s')) !! id = Some sub
    /\ Subscription.next_billing_date sub
       = Some (ex_now + DateTime.timedelta_days 30)
    /\ Subscription.monthly_preorder_limit sub = 2.
Proof.
  destruct (create_subscription_success ex_service 9 1 "pm_9" true
              (Customer.mk "Kilimo Traders" "orders@kilimo.example" true) ex_plan 30
              ltac:(vm_compute; reflexivity) ltac:(vm_compute; reflexivity)
              ltac:(vm_compute; reflexivity) ltac:(apply list_elem_of_here)
              ltac:(vm_compute; reflexivity))
    as (id & sub & s' & Hrun & _ & Hrow & _ & _ & _ & _ & _ & _ & Hdue & _ & Hlimit & _).
  exists id, sub, s'. split; [exact Hrun|]. split; [exact Hrow|]. split; assumption.
Defined.

(** X21 on an example service. *)
Lemma create_subscription_rejection_unchanged_witness :
  (create_subscription 9 1 "pm_declined" true ex_service).2 = ex_service.
Proof.
  apply (create_subscription_rejection_unchanged ex_service 9 1 "pm_declined" true
           (ValueError "Payment failed: card declined")
           (create_subscription 9 1 "pm_declined" true ex_service).2).
  vm_compute. reflexivity.
Defined.

(** X22 on an example service. *)
Lemma create_subscription_once_witness :
  create_subscription 9 1 "pm_10" false ex_service_joined
  = (inl (ValueError "Customer already has an active subscription"), ex_service_joined).
Proof.
  apply (create_subscription_once ex_service 9 1 "pm_9" true
           (3, new_subscription ex_now 9 1 "pm_9" true ex_plan) ex_service_joined
           ltac:(vm_compute; reflexivity) 1 "pm_10" false ex_plan).
  vm_compute. reflexivity.
Defined.

(** X23 on an example world. *)
Lemma analytics_counts_witness :
  exists a,
    get_subscription_analytics 1 ex_world_one_cancelled = (inr a, ex_world_one_cancelled)
    /\ current_month_orders (session ex_world_one_cancelled) 1
         (clock ex_world_one_cancelled)
       <= Analytics.current_month_orders a
    /\ Analytics.current_month_orders a <= Analytics.total_pre_orders a.
Proof.
  destruct (get_subscription_analytics 1 ex_world_one_cancelled) as [[e|a] w'] eqn:Hrun;
    [vm_compute in Hrun; discriminate|].
  destruct (analytics_counts ex_world_one_cancelled 1 a w' Hrun) as (-> & H1 & H2 & _).
  exists a. repeat split; done.
Defined.

(** X24 on an example world. *)
Lemma analytics_counts_after_cancel_witness :
  exists a a1,
    get_subscription_analytics 1 ex_world_full = (inr a, ex_world_full)
    /\ get_subscription_analytics 1 ex_world_one_cancelled
       = (inr a1, ex_world_one_cancelled)
    /\ Analytics.total_pre_orders a1 = Analytics.total_pre_orders a
    /\ Analytics.current_month_orders a1 = Analytics.current_month_orders a.
Proof.
  destruct (get_subscription_analytics 1 ex_world_full) as [[e|a] w'] eqn:Hrun;
    [vm_compute in Hrun; discriminate|].
  pose proof (get_subscription_analytics_world ex_world_full 1) as Hw.
  rewrite Hrun in Hw. simpl in Hw. subst w'.
  destruct (analytics_counts_after_cancel ex_world_full 1 ex_world_one_cancelled 1 a
              ex_world_full ltac:(vm_compute; reflexivity) Hrun)
    as (a1 & Hrun1 & Htotal & Hmonth & _).
  exists a, a1. split; [reflexivity|]. split; [exact Hrun1|]. split; assumption.
Defined.
